(** * Real-time edge detection viewer: frame driver and OpenCV wrapper

    A shallow embedding of the web viewer's processing core:
    - [EdgeDetectionApp] of [src/app.ts]: configuration handlers and the
      per-frame driver [processFrame];
    - [OpenCVProcessor] of [opencv-processor.js]: the wrapper around the
      OpenCV.js library object [cv];
    - the types of [src/types.ts];
    - [EdgeDetector] of [src/edge-detection.ts], which is not among the
      sources: the interface [EdgeDetectorApi] the driver calls, and its
      operators as the spec describes them.

    JavaScript exceptions are an explicit [result] type, the mutable
    application object is passed as a state record, and the external OpenCV
    library is an interface ([CvLib]) with its documented contracts
    ([CvLaws]) and an integer reference instance ([cv_model]). *)

From Stdlib Require Import String ZArith List Lia Bool QArith Qround.
Import ListNotations.
Close Scope Q_scope.
Open Scope Z_scope.

(* ===================================================================== *)
(** ** Exceptions *)
(* ===================================================================== *)

(** What a JavaScript call can throw in this program. *)
Inductive Exception : Type :=
| Error (message : string)          (* [throw new Error(message)] *)
| DOMException (name : string)      (* raised by canvas / ImageData *)
| CvException (what : string).      (* raised inside the OpenCV library *)

Inductive result (A : Type) : Type :=
| Ok (a : A)
| Throw (e : Exception).
Arguments Ok {A} a.
Arguments Throw {A} e.

Definition bind {A B : Type} (r : result A) (k : A -> result B) : result B :=
  match r with
  | Ok a => k a
  | Throw e => Throw e
  end.

Notation "x <- r ;; k" := (bind r (fun x => k))
  (at level 61, r at next level, right associativity).

Definition raises {A : Type} (r : result A) : Prop := exists e, r = Throw e.

(* ===================================================================== *)
(** ** Pixel buffers *)
(* ===================================================================== *)

(** The DOM [ImageData]: RGBA samples, row-major, four per pixel. *)
Record ImageData : Type := mkImageData {
  width : nat;
  height : nat;
  data : list Z
}.

Definition is_u8 (v : Z) : Prop := 0 <= v <= 255.

(** A buffer as [getImageData] hands it out. *)
Definition valid_image (img : ImageData) : Prop :=
  (0 < width img)%nat /\ (0 < height img)%nat /\
  length (data img) = (4 * (width img * height img))%nat /\
  Forall is_u8 (data img).

(** [new Uint8ClampedArray(src)]: every sample clamped to 0..255. *)
Definition clamp_u8 (v : Z) : Z := Z.max 0 (Z.min v 255).
Definition Uint8ClampedArray (d : list Z) : list Z := map clamp_u8 d.

(** [new ImageData(array, sw, sh)] with the checks of the DOM constructor. *)
Definition newImageData (d : list Z) (sw sh : nat) : result ImageData :=
  if ((sw =? 0) || (sh =? 0))%nat then Throw (DOMException "IndexSizeError")
  else if ((length d =? 0) || negb (length d mod 4 =? 0))%nat
       then Throw (DOMException "InvalidStateError")
  else if negb ((length d / 4) mod sw =? 0)%nat
       then Throw (DOMException "IndexSizeError")
  else if negb ((length d / 4) / sw =? sh)%nat
       then Throw (DOMException "IndexSizeError")
  else Ok (mkImageData sw sh d).

(** The red sample of pixel [i], i.e. [data[4*i]]. *)
Definition px (img : ImageData) (i : nat) : Z := nth (4 * i) (data img) 0.

(** A result of the size of the input frame, with four samples a pixel. *)
Definition same_dimensions (input : ImageData) (r : result ImageData) : Prop :=
  exists out, r = Ok out /\ width out = width input
              /\ height out = height input
              /\ length (data out) = (4 * (width out * height out))%nat.

(* ===================================================================== *)
(** ** The OpenCV library interface *)
(* ===================================================================== *)

Inductive Depth : Type := CV_8U | CV_16S.

(** [cv.Mat]: rows, cols, element depth, channel count and the samples. *)
Record Mat : Type := mkMat {
  rows : nat;
  cols : nat;
  depth : Depth;
  channels : nat;
  mdata : list Z
}.

Inductive ColorConversionCode : Type := COLOR_RGBA2GRAY | COLOR_GRAY2RGBA.

Definition mat_ok (m : Mat) : Prop :=
  length (mdata m) = (rows m * cols m * channels m)%nat.

Definition same_size (a b : Mat) : Prop :=
  rows a = rows b /\ cols a = cols b.

(** [cv.matFromImageData]: a [CV_8UC4] matrix holding the buffer. *)
Definition matFromImageData (imageData : ImageData) : Mat :=
  mkMat (height imageData) (width imageData) CV_8U 4 (data imageData).

(** The library functions the wrapper calls.  Sizes are [cv.Size(w, h)]
    pairs; scalar weights are rationals. *)
Class CvLib : Type := {
  cvtColor : Mat -> ColorConversionCode -> result Mat;
  GaussianBlur : Mat -> Z * Z -> Q -> result Mat;
  Sobel : Mat -> Depth -> Z -> Z -> Z -> result Mat;
  convertScaleAbs : Mat -> result Mat;
  addWeighted : Mat -> Q -> Mat -> Q -> Q -> result Mat;
  Laplacian : Mat -> Depth -> Z -> result Mat;
  Canny : Mat -> Z -> Z -> result Mat;
  getBuildInformation : string
}.

(** [cvRound]: nearest integer, ties to the even one. *)
Definition cvRound (q : Q) : Z :=
  let f := Qfloor q in
  match Qcompare (q - inject_Z f)%Q (1 # 2)%Q with
  | Lt => f
  | Gt => f + 1
  | Eq => if Z.even f then f else f + 1
  end.

(** [saturate_cast<uchar>] and [saturate_cast<short>]. *)
Definition saturate_u8 (v : Z) : Z := Z.max 0 (Z.min v 255).
Definition saturate_s16 (v : Z) : Z := Z.max (-32768) (Z.min v 32767).

Definition odd_positive (k : Z) : Prop := 0 < k /\ Z.odd k = true.

Fixpoint zipWith {A B C : Type} (f : A -> B -> C) (l1 : list A) (l2 : list B)
  : list C :=
  match l1, l2 with
  | a :: t1, b :: t2 => f a b :: zipWith f t1 t2
  | _, _ => []
  end.

Definition gray_to_rgba (g : Z) : list Z := [g; g; g; 255].

(** The documented behaviour of the library on the arguments the wrapper
    passes: every filter returns a matrix of the size of its source, colour
    conversions fix the channel count, and the three pointwise functions
    are given by their formulas. *)
Class CvLaws (cv : CvLib) : Prop := {
  cvtColor_RGBA2GRAY : forall m,
    mat_ok m -> depth m = CV_8U -> channels m = 4%nat ->
    exists g, cvtColor m COLOR_RGBA2GRAY = Ok g /\ same_size g m /\
              depth g = CV_8U /\ channels g = 1%nat /\ mat_ok g;
  cvtColor_GRAY2RGBA : forall m,
    mat_ok m -> depth m = CV_8U -> channels m = 1%nat ->
    cvtColor m COLOR_GRAY2RGBA =
      Ok (mkMat (rows m) (cols m) CV_8U 4 (flat_map gray_to_rgba (mdata m)));
  GaussianBlur_size : forall m k sigma,
    mat_ok m -> depth m = CV_8U -> odd_positive k ->
    exists b, GaussianBlur m (k, k) sigma = Ok b /\ same_size b m /\
              depth b = CV_8U /\ channels b = channels m /\ mat_ok b;
  GaussianBlur_1x1 : forall m sigma,
    mat_ok m -> depth m = CV_8U -> GaussianBlur m (1, 1) sigma = Ok m;
  Sobel_size : forall m dx dy ksize,
    mat_ok m -> depth m = CV_8U -> channels m = 1%nat ->
    (dx, dy) = (1, 0) \/ (dx, dy) = (0, 1) -> In ksize [3; 5; 7] ->
    exists g, Sobel m CV_16S dx dy ksize = Ok g /\ same_size g m /\
              depth g = CV_16S /\ channels g = 1%nat /\ mat_ok g;
  convertScaleAbs_abs : forall m,
    convertScaleAbs m =
      Ok (mkMat (rows m) (cols m) CV_8U (channels m)
                (map (fun v => saturate_u8 (Z.abs v)) (mdata m)));
  addWeighted_sum : forall a alpha b beta gamma,
    same_size a b -> depth a = CV_8U -> depth b = CV_8U ->
    channels a = channels b ->
    addWeighted a alpha b beta gamma =
      Ok (mkMat (rows a) (cols a) CV_8U (channels a)
            (zipWith (fun x y =>
                        saturate_u8 (cvRound (alpha * inject_Z x
                                              + beta * inject_Z y + gamma)%Q))
                     (mdata a) (mdata b)));
  Laplacian_size : forall m ksize,
    mat_ok m -> depth m = CV_8U -> channels m = 1%nat -> In ksize [3; 5; 7] ->
    exists g, Laplacian m CV_16S ksize = Ok g /\ same_size g m /\
              depth g = CV_16S /\ channels g = 1%nat /\ mat_ok g;
  Canny_size : forall m low high,
    mat_ok m -> depth m = CV_8U -> channels m = 1%nat ->
    exists e, Canny m low high = Ok e /\ same_size e m /\
              depth e = CV_8U /\ channels e = 1%nat /\ mat_ok e
}.

(* ===================================================================== *)
(** ** OpenCVProcessor (opencv-processor.js) *)
(* ===================================================================== *)

(** The wrapper object: [isReady] is set by [onRuntimeInitialized]; the
    [cv] field is the library, here the section's [CvLib]. *)
Module OpenCVProcessor.

Record t : Type := mk {
  isReady : bool
}.

Definition notInitialized : Exception := Error "OpenCV not initialized".

(** The constructor: [this.isReady = false]. *)
Definition new : t := mk false.

(** [onRuntimeInitialized], the callback [initialize] installs. *)
Definition onRuntimeInitialized (p : t) : t := mk true.

Definition ready (p : t) : bool := isReady p.

Section Wrapper.
Context {cv : CvLib}.

(** [new ImageData(new Uint8ClampedArray(m.data), m.cols, m.rows)]. *)
Definition toImageData (m : Mat) : result ImageData :=
  newImageData (Uint8ClampedArray (mdata m)) (cols m) (rows m).

Definition canny (p : t) (imageData : ImageData)
           (lowThreshold highThreshold : Z) : result ImageData :=
  if negb (isReady p) then Throw notInitialized else
  let src := matFromImageData imageData in
  gray <- cvtColor src COLOR_RGBA2GRAY ;;
  edges <- Canny gray lowThreshold highThreshold ;;
  res <- cvtColor edges COLOR_GRAY2RGBA ;;
  toImageData res.

Definition grayscale (p : t) (imageData : ImageData)
  : result ImageData :=
  if negb (isReady p) then Throw notInitialized else
  let src := matFromImageData imageData in
  gray <- cvtColor src COLOR_RGBA2GRAY ;;
  res <- cvtColor gray COLOR_GRAY2RGBA ;;
  toImageData res.

Definition sobel (p : t) (imageData : ImageData) (ksize : Z)
  : result ImageData :=
  if negb (isReady p) then Throw notInitialized else
  let src := matFromImageData imageData in
  gray <- cvtColor src COLOR_RGBA2GRAY ;;
  blurred <- GaussianBlur gray (3, 3) 0%Q ;;
  gradX <- Sobel blurred CV_16S 1 0 ksize ;;
  gradY <- Sobel blurred CV_16S 0 1 ksize ;;
  absGradX <- convertScaleAbs gradX ;;
  absGradY <- convertScaleAbs gradY ;;
  edges <- addWeighted absGradX (1 # 2)%Q absGradY (1 # 2)%Q 0%Q ;;
  res <- cvtColor edges COLOR_GRAY2RGBA ;;
  toImageData res.

(** The intermediate matrices of [sobel], for statements about them:
    [gradX] and [gradY] are the 16-bit gradients, [edges] the emitted
    single-channel magnitude. *)
Record SobelStages : Type := mkSobelStages {
  gradX : Mat;
  gradY : Mat;
  edges : Mat
}.

Definition sobelStages (imageData : ImageData) (ksize : Z)
  : result SobelStages :=
  let src := matFromImageData imageData in
  gray <- cvtColor src COLOR_RGBA2GRAY ;;
  blurred <- GaussianBlur gray (3, 3) 0%Q ;;
  gradX <- Sobel blurred CV_16S 1 0 ksize ;;
  gradY <- Sobel blurred CV_16S 0 1 ksize ;;
  absGradX <- convertScaleAbs gradX ;;
  absGradY <- convertScaleAbs gradY ;;
  edges <- addWeighted absGradX (1 # 2)%Q absGradY (1 # 2)%Q 0%Q ;;
  Ok (mkSobelStages gradX gradY edges).

Definition gaussianBlur (p : t) (imageData : ImageData)
           (ksize : Z) (sigma : Q) : result ImageData :=
  if negb (isReady p) then Throw notInitialized else
  let src := matFromImageData imageData in
  blurred <- GaussianBlur src (ksize, ksize) sigma ;;
  toImageData blurred.

Definition laplacian (p : t) (imageData : ImageData)
           (ksize : Z) : result ImageData :=
  if negb (isReady p) then Throw notInitialized else
  let src := matFromImageData imageData in
  gray <- cvtColor src COLOR_RGBA2GRAY ;;
  blurred <- GaussianBlur gray (3, 3) 0%Q ;;
  lap <- Laplacian blurred CV_16S ksize ;;
  absLaplacian <- convertScaleAbs lap ;;
  res <- cvtColor absLaplacian COLOR_GRAY2RGBA ;;
  toImageData res.

(** [getBuildInfo] answers with a string in either state. *)
Definition getBuildInfo (p : t) : result string :=
  if negb (isReady p) then Ok "OpenCV not initialized"%string
  else Ok getBuildInformation.

(** Default arguments of the wrapper's signatures. *)
Definition default_ksize : Z := 3.
Definition default_blur_ksize : Z := 5.
Definition default_lowThreshold : Z := 50.
Definition default_highThreshold : Z := 150.

End Wrapper.

End OpenCVProcessor.

(* ===================================================================== *)
(** ** Convolution engine *)
(* ===================================================================== *)

(** Border extrapolation: replicate the edge sample ([aaa|abcd|ddd]) or
    reflect without repeating it ([dcb|abcd|cba]). *)
Inductive BorderType : Type := BORDER_REPLICATE | BORDER_REFLECT_101.

Definition clampIndex (n : nat) (i : Z) : nat :=
  Z.to_nat (Z.max 0 (Z.min i (Z.of_nat n - 1))).

Definition borderInterpolate (b : BorderType) (n : nat) (i : Z) : nat :=
  match b with
  | BORDER_REPLICATE => clampIndex n i
  | BORDER_REFLECT_101 =>
      clampIndex n (if i <? 0 then - i
                    else if Z.of_nat n <=? i then 2 * (Z.of_nat n - 1) - i
                    else i)
  end.

(** Sample [c] of the pixel at row [y], column [x], extrapolated. *)
Definition sample (b : BorderType) (nr nc ch : nat) (d : list Z)
           (y x : Z) (c : nat) : Z :=
  nth ((borderInterpolate b nr y * nc + borderInterpolate b nc x) * ch + c) d 0.

Definition sumZ (l : list Z) : Z := fold_right Z.add 0 l.

Definition indexed {A : Type} (l : list A) : list (nat * A) :=
  combine (seq 0 (length l)) l.

(** The kernel's weighted sum around flat index [i] (correlation, anchor at
    the kernel centre). *)
Definition filterAt (b : BorderType) (k : list (list Z)) (nr nc ch : nat)
           (d : list Z) (i : nat) : Z :=
  let c := (i mod ch)%nat in
  let p := (i / ch)%nat in
  let y := Z.of_nat (p / nc) in
  let x := Z.of_nat (p mod nc) in
  let ry := Z.of_nat (length k / 2) in
  sumZ (map (fun '(ky, row) =>
          let rx := Z.of_nat (length row / 2) in
          sumZ (map (fun '(kx, w) =>
                  w * sample b nr nc ch d (y + Z.of_nat ky - ry)
                                          (x + Z.of_nat kx - rx) c)
                    (indexed row)))
            (indexed k)).

(** One filtering pass; [post] is the final scaling or saturation. *)
Definition filter2D (b : BorderType) (k : list (list Z)) (post : Z -> Z)
           (nr nc ch : nat) (d : list Z) : list Z :=
  map (fun i => post (filterAt b k nr nc ch d i)) (seq 0 (nr * nc * ch)).

Definition outer (u v : list Z) : list (list Z) :=
  map (fun a => map (fun w => a * w) v) u.

(** Row [n] of Pascal's triangle: the integer smoothing weights. *)
Fixpoint binomialRow (n : nat) : list Z :=
  match n with
  | O => [1]
  | S m => let r := binomialRow m in zipWith Z.add (0 :: r) (r ++ [0])
  end.

(** One finite difference, the correlation with [[-1; 1]]. *)
Definition diffRow (l : list Z) : list Z := zipWith Z.sub (0 :: l) (l ++ [0]).

(** The 1-D derivative kernel of aperture [n] and order [k]. *)
Definition derivKernel (n k : nat) : list Z :=
  Nat.iter k diffRow (binomialRow (n - 1 - k)).

(** Division by the kernel total, rounding half up. *)
Definition normalize (total v : Z) : Z := (v + total / 2) / total.

(** Samples outside the image read as zero. *)
Definition at2 (nr nc : nat) (d : list Z) (y x : Z) : Z :=
  if (0 <=? y) && (y <? Z.of_nat nr) && (0 <=? x) && (x <? Z.of_nat nc)
  then nth (Z.to_nat (y * Z.of_nat nc + x)) d 0
  else 0.

(** Pixel labels of a Canny detector. *)
Definition nonEdge : Z := 0.
Definition candidate : Z := 1.
Definition strong : Z := 2.

Definition neighbours8 : list (Z * Z) :=
  [(-1, -1); (-1, 0); (-1, 1); (0, -1); (0, 1); (1, -1); (1, 0); (1, 1)].

(** One round of hysteresis: a candidate next to a strong pixel becomes
    strong. *)
Definition promote (nr nc : nat) (labels : list Z) : list Z :=
  map (fun i =>
         let y := Z.of_nat (i / nc) in
         let x := Z.of_nat (i mod nc) in
         let l := nth i labels 0 in
         if (l =? candidate)
            && existsb (fun '(dy, dx) =>
                          at2 nr nc labels (y + dy) (x + dx) =? strong)
                       neighbours8
         then strong else l)
      (seq 0 (nr * nc)).

(** Hysteresis: promotion repeated until nothing can change (every
    productive round promotes a pixel, so [nr * nc] rounds reach the
    fixpoint). *)
Definition hysteresis (nr nc : nat) (labels : list Z) : list Z :=
  Nat.iter (nr * nc) (promote nr nc) labels.

(* ===================================================================== *)
(** ** An integer reference instance of the library *)
(* ===================================================================== *)

(** [cv_model] follows the library's documentation in integer arithmetic:
    fixed-point BT.601 luma, binomial Gaussian weights (the library's own
    for apertures up to 5 at [sigma = 0]; [sigma] is not used), Sobel and
    Laplacian kernels from binomial smoothing and finite differences with
    the default reflect-101 border, and a Canny detector with the L1
    gradient norm.  It inhabits [CvLaws] and evaluates the wrapper on
    concrete frames. *)
Module CvModel.

Definition unsupported {A : Type} (what : string) : result A :=
  Throw (CvException what).

Definition mat_okb (m : Mat) : bool :=
  (length (mdata m) =? rows m * cols m * channels m)%nat.

Definition is8U (m : Mat) : bool :=
  match depth m with CV_8U => true | CV_16S => false end.

(** [Y = (4899 R + 9617 G + 1868 B + 2^13) >> 14]. *)
Definition luma (r g b : Z) : Z :=
  Z.shiftr (4899 * r + 9617 * g + 1868 * b + 8192) 14.

Definition rgba2gray (n : nat) (d : list Z) : list Z :=
  map (fun i => luma (nth (4 * i) d 0) (nth (4 * i + 1) d 0)
                     (nth (4 * i + 2) d 0))
      (seq 0 n).

Definition cvtColor (m : Mat) (code : ColorConversionCode) : result Mat :=
  if negb (mat_okb m && is8U m) then unsupported "cvtColor: bad matrix" else
  match code with
  | COLOR_RGBA2GRAY =>
      if (channels m =? 4)%nat
      then Ok (mkMat (rows m) (cols m) CV_8U 1
                     (rgba2gray (rows m * cols m) (mdata m)))
      else unsupported "cvtColor: scn == 4"
  | COLOR_GRAY2RGBA =>
      if (channels m =? 1)%nat
      then Ok (mkMat (rows m) (cols m) CV_8U 4
                     (flat_map gray_to_rgba (mdata m)))
      else unsupported "cvtColor: scn == 1"
  end.

Definition oddPositive (k : Z) : bool := (0 <? k) && Z.odd k.

Definition GaussianBlur (m : Mat) (ksize : Z * Z) (sigma : Q) : result Mat :=
  let '(kw, kh) := ksize in
  if negb (mat_okb m && is8U m) then unsupported "GaussianBlur: bad matrix" else
  if negb (oddPositive kw && oddPositive kh)
  then unsupported "GaussianBlur: ksize must be odd and positive" else
  if (kw =? 1) && (kh =? 1) then Ok m else
  let ky := binomialRow (Z.to_nat (kh - 1)) in
  let kx := binomialRow (Z.to_nat (kw - 1)) in
  Ok (mkMat (rows m) (cols m) CV_8U (channels m)
        (filter2D BORDER_REFLECT_101 (outer ky kx)
                  (normalize (sumZ ky * sumZ kx))
                  (rows m) (cols m) (channels m) (mdata m))).

Definition saturate (d : Depth) : Z -> Z :=
  match d with CV_8U => saturate_u8 | CV_16S => saturate_s16 end.

Definition apertureOk (ksize : Z) : bool :=
  (3 <=? ksize) && (ksize <=? 31) && Z.odd ksize.

Definition Sobel (m : Mat) (ddepth : Depth) (dx dy ksize : Z) : result Mat :=
  if negb (mat_okb m && is8U m) then unsupported "Sobel: bad matrix" else
  if negb (apertureOk ksize) then unsupported "Sobel: ksize" else
  if negb ((0 <=? dx) && (0 <=? dy) && (0 <? dx + dy)
           && (dx <? ksize) && (dy <? ksize))
  then unsupported "Sobel: derivative order" else
  let n := Z.to_nat ksize in
  let ky := derivKernel n (Z.to_nat dy) in
  let kx := derivKernel n (Z.to_nat dx) in
  Ok (mkMat (rows m) (cols m) ddepth (channels m)
        (filter2D BORDER_REFLECT_101 (outer ky kx) (saturate ddepth)
                  (rows m) (cols m) (channels m) (mdata m))).

Definition convertScaleAbs (m : Mat) : result Mat :=
  Ok (mkMat (rows m) (cols m) CV_8U (channels m)
            (map (fun v => saturate_u8 (Z.abs v)) (mdata m))).

Definition sameShape (a b : Mat) : bool :=
  ((rows a =? rows b) && (cols a =? cols b)
   && (channels a =? channels b))%nat && is8U a && is8U b.

Definition addWeighted (a : Mat) (alpha : Q) (b : Mat) (beta gamma : Q)
  : result Mat :=
  if negb (sameShape a b) then unsupported "addWeighted: sizes differ" else
  Ok (mkMat (rows a) (cols a) CV_8U (channels a)
        (zipWith (fun x y =>
                    saturate_u8 (cvRound (alpha * inject_Z x
                                          + beta * inject_Z y + gamma)%Q))
                 (mdata a) (mdata b))).

Definition matrixAdd (a b : list (list Z)) : list (list Z) :=
  zipWith (zipWith Z.add) a b.

(** Second derivative in x plus second derivative in y. *)
Definition Laplacian (m : Mat) (ddepth : Depth) (ksize : Z) : result Mat :=
  if negb (mat_okb m && is8U m) then unsupported "Laplacian: bad matrix" else
  if negb (apertureOk ksize) then unsupported "Laplacian: ksize" else
  let n := Z.to_nat ksize in
  let s := derivKernel n 0 in
  let d2 := derivKernel n 2 in
  Ok (mkMat (rows m) (cols m) ddepth (channels m)
        (filter2D BORDER_REFLECT_101 (matrixAdd (outer s d2) (outer d2 s))
                  (saturate ddepth)
                  (rows m) (cols m) (channels m) (mdata m))).

(** Non-maximum suppression along the gradient sector ([tan 22.5] is
    13573 / 2^15), then the double threshold. *)
Definition classify (nr nc : nat) (gx gy mag : list Z) (lo hi : Z) (i : nat)
  : Z :=
  let y := Z.of_nat (i / nc) in
  let x := Z.of_nat (i mod nc) in
  let m := nth i mag 0 in
  let dx := nth i gx 0 in
  let dy := nth i gy 0 in
  if m <=? lo then nonEdge else
  let ax := Z.abs dx in
  let ay := Z.abs dy * 2 ^ 15 in
  let tg22 := ax * 13573 in
  let keep :=
    if ay <? tg22
    then (at2 nr nc mag y (x - 1) <? m) && (at2 nr nc mag y (x + 1) <=? m)
    else if tg22 + ax * 2 ^ 16 <? ay
    then (at2 nr nc mag (y - 1) x <? m) && (at2 nr nc mag (y + 1) x <=? m)
    else let s := if dx * dy <? 0 then -1 else 1 in
         (at2 nr nc mag (y - 1) (x - s) <? m)
         && (at2 nr nc mag (y + 1) (x + s) <? m) in
  if keep then (if hi <? m then strong else candidate) else nonEdge.

(** The low and high thresholds are exchanged when given in reverse. *)
Definition cannyEdges (nr nc : nat) (d : list Z) (low high : Z) : list Z :=
  let lo := Z.min low high in
  let hi := Z.max low high in
  let gx := filter2D BORDER_REPLICATE (outer [1; 2; 1] [-1; 0; 1])
                     (fun v => v) nr nc 1 d in
  let gy := filter2D BORDER_REPLICATE (outer [-1; 0; 1] [1; 2; 1])
                     (fun v => v) nr nc 1 d in
  let mag := zipWith (fun a b => Z.abs a + Z.abs b) gx gy in
  let labels := map (classify nr nc gx gy mag lo hi) (seq 0 (nr * nc)) in
  let final := hysteresis nr nc labels in
  map (fun i => if nth i final 0 =? strong then 255 else 0) (seq 0 (nr * nc)).

Definition Canny (m : Mat) (low high : Z) : result Mat :=
  if negb (mat_okb m && is8U m) then unsupported "Canny: bad matrix" else
  if negb (channels m =? 1)%nat then unsupported "Canny: 8UC1 expected" else
  Ok (mkMat (rows m) (cols m) CV_8U 1
            (cannyEdges (rows m) (cols m) (mdata m) low high)).

End CvModel.

#[export] Instance cv_model : CvLib := {
  cvtColor := CvModel.cvtColor;
  GaussianBlur := CvModel.GaussianBlur;
  Sobel := CvModel.Sobel;
  convertScaleAbs := CvModel.convertScaleAbs;
  addWeighted := CvModel.addWeighted;
  Laplacian := CvModel.Laplacian;
  Canny := CvModel.Canny;
  getBuildInformation := "integer reference model"
}.

(* ===================================================================== *)
(** ** EdgeDetector (the TypeScript implementation) *)
(* ===================================================================== *)

(** The static methods of [EdgeDetector] that [app.ts] calls, each with the
    argument list of its call site. *)
Class EdgeDetectorApi : Type := {
  EdgeDetector_gaussianBlur : ImageData -> Z -> result ImageData;
  EdgeDetector_sobel : ImageData -> Z -> result ImageData;
  EdgeDetector_canny : ImageData -> Z -> result ImageData;
  EdgeDetector_roberts : ImageData -> Z -> result ImageData;
  EdgeDetector_prewitt : ImageData -> Z -> result ImageData;
  EdgeDetector_laplacian : ImageData -> Z -> result ImageData
}.

Module EdgeDetector.

(** Modelled from the spec: [src/edge-detection.ts] is not among the
    sources; section 7 names the errors of malformed input and
    configuration. *)
Definition InvalidDimensions : Exception := Error "InvalidDimensions".
Definition InvalidKernel : Exception := Error "InvalidKernel".
Definition InvalidThresholds : Exception := Error "InvalidThresholds".

(** Modelled from the spec: section 4.1, grayscale extraction with fixed
    luma weights (BT.601: 0.299, 0.587, 0.114, rounded to nearest), failing
    with [InvalidDimensions] when the length is not width * height * 4. *)
Definition toGrayscale (imageData : ImageData) : result (list Z) :=
  if negb (length (data imageData)
           =? 4 * (width imageData * height imageData))%nat
  then Throw InvalidDimensions
  else Ok (map (fun i =>
                  let d := data imageData in
                  (299 * nth (4 * i) d 0 + 587 * nth (4 * i + 1) d 0
                   + 114 * nth (4 * i + 2) d 0 + 500) / 1000)
               (seq 0 (width imageData * height imageData))).

(** Modelled from the spec: section 4.3, "emit as grayscale-replicated
    RGBA", samples clamped to 8 bits (section 4.2). *)
Definition emit (w h : nat) (gray : list Z) : ImageData :=
  mkImageData w h (flat_map (fun g => gray_to_rgba (clamp_u8 g)) gray).

(** Modelled from the spec: section 4.2, the convolution engine: a kernel
    of odd size at least 3 over a single-channel buffer with
    replicate-edge borders; [InvalidKernel] otherwise. *)
Definition convolve (k : list (list Z)) (w h : nat) (gray : list Z)
  : result (list Z) :=
  if (Nat.even (length k) || (length k <=? 1))%nat
  then Throw InvalidKernel
  else Ok (filter2D BORDER_REPLICATE k (fun v => v) h w 1 gray).

(** Modelled from the spec: section 4.3, Gaussian blur: a separable 1-D
    kernel of the given radius normalised to sum 1, applied horizontally
    then vertically.  The weights are those of row [2 * radius] of
    Pascal's triangle, the integer sampling of the normal density; radius
    0 is the one-tap kernel. *)
Definition blurGray (radius : nat) (w h : nat) (gray : list Z) : list Z :=
  let k := binomialRow (2 * radius) in
  let total := sumZ k in
  let horizontal :=
    filter2D BORDER_REPLICATE [k] (normalize total) h w 1 gray in
  filter2D BORDER_REPLICATE (map (fun c => [c]) k)
           (normalize total) h w 1 horizontal.

(** Modelled from the spec: sections 4.3 and 8, the standalone blur
    operator: the blurred grayscale conversion of the frame, so that radius
    0 gives the grayscale-converted input. *)
Definition gaussianBlur (imageData : ImageData) (radius : Z)
  : result ImageData :=
  gray <- toGrayscale imageData ;;
  Ok (emit (width imageData) (height imageData)
           (blurGray (Z.to_nat radius) (width imageData) (height imageData)
                     gray)).

(** Modelled from the spec: section 4.3, the 3x3 Sobel and Prewitt
    gradient kernels and the second-derivative kernel. *)
Definition sobelX : list (list Z) := [[-1; 0; 1]; [-2; 0; 2]; [-1; 0; 1]].
Definition sobelY : list (list Z) := [[-1; -2; -1]; [0; 0; 0]; [1; 2; 1]].
Definition prewittX : list (list Z) := [[-1; 0; 1]; [-1; 0; 1]; [-1; 0; 1]].
Definition prewittY : list (list Z) := [[-1; -1; -1]; [0; 0; 0]; [1; 1; 1]].
Definition laplacianKernel : list (list Z) :=
  [[0; 1; 0]; [1; -4; 1]; [0; 1; 0]].

(** Modelled from the spec: section 4.3, [0.5 * |gx| + 0.5 * |gy|],
    rounded half up on emission. *)
Definition weightedMagnitude (gx gy : Z) : Z := (Z.abs gx + Z.abs gy + 1) / 2.

(** Modelled from the spec: section 4.3, hard binarisation: full intensity
    when the weighted-sum magnitude is at or above the threshold. *)
Definition binarize (threshold : Z) (twiceMagnitude : Z) : Z :=
  if 2 * threshold <=? twiceMagnitude then 255 else 0.

(** Modelled from the spec: section 4.3, Sobel: grayscale, the two 3x3
    gradients, weighted-sum magnitude, continuous output (the threshold
    does not enter; the optional blur is the driver's separate stage). *)
Definition sobel (imageData : ImageData) (threshold : Z) : result ImageData :=
  let w := width imageData in
  let h := height imageData in
  gray <- toGrayscale imageData ;;
  gx <- convolve sobelX w h gray ;;
  gy <- convolve sobelY w h gray ;;
  Ok (emit w h (zipWith weightedMagnitude gx gy)).

(** Modelled from the spec: section 4.3, Prewitt: the structure of Sobel
    with uniform-weight kernels, magnitude binarised at the threshold. *)
Definition prewitt (imageData : ImageData) (threshold : Z)
  : result ImageData :=
  let w := width imageData in
  let h := height imageData in
  gray <- toGrayscale imageData ;;
  gx <- convolve prewittX w h gray ;;
  gy <- convolve prewittY w h gray ;;
  Ok (emit w h (zipWith (fun a b => binarize threshold (Z.abs a + Z.abs b))
                        gx gy)).

(** Modelled from the spec: section 4.3, Roberts: the two diagonal
    differences of a 2x2 block of adjacent pixels (the nearest pixel
    repeated past the last row and column), combined as the Prewitt
    magnitude is and binarised identically. *)
Definition roberts (imageData : ImageData) (threshold : Z)
  : result ImageData :=
  let w := width imageData in
  let h := height imageData in
  gray <- toGrayscale imageData ;;
  Ok (emit w h
        (map (fun i =>
                let y := Z.of_nat (i / w) in
                let x := Z.of_nat (i mod w) in
                let at_ dy dx :=
                  sample BORDER_REPLICATE h w 1 gray (y + dy) (x + dx) 0 in
                let d1 := at_ 0 0 - at_ 1 1 in
                let d2 := at_ 0 1 - at_ 1 0 in
                binarize threshold (Z.abs d1 + Z.abs d2))
             (seq 0 (w * h)))).

(** Modelled from the spec: section 4.3, Laplacian: grayscale, fixed 3x3
    Gaussian blur, one second-derivative kernel, absolute value. *)
Definition laplacian (imageData : ImageData) (threshold : Z)
  : result ImageData :=
  let w := width imageData in
  let h := height imageData in
  gray <- toGrayscale imageData ;;
  lap <- convolve laplacianKernel w h (blurGray 1 w h gray) ;;
  Ok (emit w h (map Z.abs lap)).

(** Modelled from the spec: section 4.4 stage 2, the four discrete edge
    orientations. *)
Inductive Orientation : Type := Deg0 | Deg45 | Deg90 | Deg135.

(** Modelled from the spec: the nearest of the four orientations to
    [atan2 gy gx].  The sector bounds are at 22.5 degrees off the axes and
    [tan 22.5 = sqrt 2 - 1], so [|gy| < tan 22.5 * |gx|] is
    [(|gx| + |gy|)^2 < 2 gx^2]. *)
Definition quantize (gx gy : Z) : Orientation :=
  let ax := Z.abs gx in
  let ay := Z.abs gy in
  if (ax + ay) * (ax + ay) <? 2 * ax * ax then Deg0
  else if (ax + ay) * (ax + ay) <? 2 * ay * ay then Deg90
  else if 0 <? gx * gy then Deg45 else Deg135.

(** Modelled from the spec: the step to the neighbour along an
    orientation, as (rows, columns). *)
Definition along (o : Orientation) : Z * Z :=
  match o with
  | Deg0 => (0, 1)
  | Deg45 => (1, 1)
  | Deg90 => (1, 0)
  | Deg135 => (1, -1)
  end.

(** Modelled from the spec: [sqrt m2 >= t], the comparison of the
    Euclidean magnitude with a threshold, on its square. *)
Definition reaches (m2 t : Z) : bool := (t <=? 0) || (t * t <=? m2).

(** Modelled from the spec: stage 3, keep a magnitude that is maximal among
    its two neighbours along the gradient; border pixels have no neighbour
    pair. *)
Definition suppress (w h : nat) (gx gy m2 : list Z) (i : nat) : Z :=
  let y := Z.of_nat (i / w) in
  let x := Z.of_nat (i mod w) in
  if (y =? 0) || (y =? Z.of_nat h - 1) || (x =? 0) || (x =? Z.of_nat w - 1)
  then 0
  else
    let '(dy, dx) := along (quantize (nth i gx 0) (nth i gy 0)) in
    let m := nth i m2 0 in
    if (at2 h w m2 (y + dy) (x + dx) <=? m)
       && (at2 h w m2 (y - dy) (x - dx) <=? m)
    then m else 0.

(** Modelled from the spec: stage 4, the local part: strong, candidate or
    suppressed. *)
Definition label (low high : Z) (m2 : Z) : Z :=
  if reaches m2 high then strong
  else if reaches m2 low then candidate
  else nonEdge.

(** Modelled from the spec: section 4.4, the Canny detector: grayscale and
    3x3 Gaussian blur, Sobel gradients with Euclidean magnitude and
    quantised direction, non-maximum suppression, hysteresis by
    8-connected promotion from the strong pixels, emission of 255 / 0;
    [InvalidThresholds] when [highThreshold <= lowThreshold]. *)
Definition canny (imageData : ImageData) (lowThreshold highThreshold : Z)
  : result ImageData :=
  let w := width imageData in
  let h := height imageData in
  if highThreshold <=? lowThreshold then Throw InvalidThresholds else
  gray <- toGrayscale imageData ;;
  let blurred := blurGray 1 w h gray in
  gx <- convolve sobelX w h blurred ;;
  gy <- convolve sobelY w h blurred ;;
  let m2 := zipWith (fun a b => a * a + b * b) gx gy in
  let thin := map (suppress w h gx gy m2) (seq 0 (w * h)) in
  let final := hysteresis h w (map (label lowThreshold highThreshold) thin) in
  Ok (emit w h (map (fun l => if l =? strong then 255 else 0) final)).

End EdgeDetector.

(** Modelled from the spec: the TypeScript backend assembled from the
    operators above.  The driver hands Canny one threshold where the spec's
    detector takes two bounds; the instance derives them as the driver's
    OpenCV call does (low = threshold, high = 2 * threshold). *)
#[export] Instance EdgeDetector_spec : EdgeDetectorApi := {
  EdgeDetector_gaussianBlur := EdgeDetector.gaussianBlur;
  EdgeDetector_sobel := EdgeDetector.sobel;
  EdgeDetector_canny := fun imageData threshold =>
    EdgeDetector.canny imageData threshold (threshold * 2);
  EdgeDetector_roberts := EdgeDetector.roberts;
  EdgeDetector_prewitt := EdgeDetector.prewitt;
  EdgeDetector_laplacian := EdgeDetector.laplacian
}.

(* ===================================================================== *)
(** ** EdgeDetectionApp (src/app.ts) *)
(* ===================================================================== *)

(** [src/types.ts]. *)
Inductive EdgeDetectionMethod : Type :=
  sobel | canny | roberts | prewitt | laplacian | grayscale.

Inductive ProcessingMode : Type := opencv | typescript.

Record EdgeDetectionConfig : Type := mkConfig {
  threshold : Z;
  blurAmount : Z;
  method : EdgeDetectionMethod;
  mode : ProcessingMode
}.

Record FPSCounter : Type := mkFPSCounter {
  frameCount : Z;
  lastTime : Z;
  currentFPS : Z
}.

(** [videoStream] is an opaque handle and is left out. *)
Record ProcessingState : Type := mkProcessingState {
  isProcessing : bool;
  animationId : option nat
}.

Definition is_opencv (m : ProcessingMode) : bool :=
  match m with opencv => true | typescript => false end.

Definition is_grayscale (m : EdgeDetectionMethod) : bool :=
  match m with grayscale => true | _ => false end.

(** A call the driver makes on one of the two backends, with the arguments
    it passes besides the image. *)
Inductive BackendCall : Type :=
| OpenCV_gaussianBlur (ksize : Z)
| OpenCV_sobel
| OpenCV_canny (lowThreshold highThreshold : Z)
| OpenCV_laplacian
| OpenCV_grayscale
| TypeScript_gaussianBlur (radius : Z)
| TypeScript_sobel (threshold : Z)
| TypeScript_canny (threshold : Z)
| TypeScript_roberts (threshold : Z)
| TypeScript_prewitt (threshold : Z)
| TypeScript_laplacian (threshold : Z).

Definition is_OpenCV_call (c : BackendCall) : bool :=
  match c with
  | OpenCV_gaussianBlur _ | OpenCV_sobel | OpenCV_canny _ _
  | OpenCV_laplacian | OpenCV_grayscale => true
  | _ => false
  end.


(** Backend calls are logged as they are made; an exception keeps the log
    and skips the rest. *)
Definition Logged (A : Type) : Type := list BackendCall * result A.

Definition ret {A : Type} (a : A) : Logged A := ([], Ok a).

Definition bindL {A B : Type} (m : Logged A) (k : A -> Logged B) : Logged B :=
  match m with
  | (l1, Ok a) => let '(l2, r) := k a in (l1 ++ l2, r)
  | (l1, Throw e) => (l1, Throw e)
  end.

Notation "x <~ m ;; k" := (bindL m (fun x => k))
  (at level 61, m at next level, right associativity).

(** The application object, with what it writes to the console, the
    renderer and [alert], and the log of its backend calls. *)
Record EdgeDetectionApp : Type := mkApp {
  opencvProcessor : OpenCVProcessor.t;
  state : ProcessingState;
  config : EdgeDetectionConfig;
  fpsCounter : FPSCounter;
  console : list Exception;
  rendered : list ImageData;
  alerts : list string;
  calls : list BackendCall
}.

Definition initialConfig : EdgeDetectionConfig := mkConfig 40 1 sobel opencv.

(** The state the constructor leaves; [now] is the [Date.now()] the field
    initialiser of [fpsCounter] reads. *)
Definition newApp (now : Z) : EdgeDetectionApp :=
  mkApp OpenCVProcessor.new (mkProcessingState false None) initialConfig
        (mkFPSCounter 0 now 0) [] [] [] [].

Definition set_config (app : EdgeDetectionApp) (c : EdgeDetectionConfig)
  : EdgeDetectionApp :=
  mkApp (opencvProcessor app) (state app) c (fpsCounter app)
        (console app) (rendered app) (alerts app) (calls app).

Definition alert (app : EdgeDetectionApp) (message : string)
  : EdgeDetectionApp :=
  mkApp (opencvProcessor app) (state app) (config app) (fpsCounter app)
        (console app) (rendered app) (alerts app ++ [message]) (calls app).

(** [initializeOpenCV]: the two ways the awaited [initialize] settles. *)
Definition initializeOpenCV_resolved (app : EdgeDetectionApp)
  : EdgeDetectionApp :=
  mkApp (OpenCVProcessor.onRuntimeInitialized (opencvProcessor app))
        (state app) (config app) (fpsCounter app)
        (console app) (rendered app) (alerts app) (calls app).

Definition initializeOpenCV_rejected (app : EdgeDetectionApp)
  : EdgeDetectionApp :=
  let c := config app in
  set_config app (mkConfig (threshold c) (blurAmount c) (method c) typescript).

Definition selectMode (app : EdgeDetectionApp) (m : ProcessingMode)
  : EdgeDetectionApp :=
  if is_opencv m && negb (OpenCVProcessor.ready (opencvProcessor app))
  then alert app
         "OpenCV.js is not loaded yet. Please wait or use TypeScript mode."
  else
    let c := config app in
    set_config app (mkConfig (threshold c) (blurAmount c) (method c) m).

Definition selectAlgorithm (app : EdgeDetectionApp) (m : EdgeDetectionMethod)
  : EdgeDetectionApp :=
  if is_grayscale m && negb (is_opencv (mode (config app)))
  then alert app "Grayscale filter is only available in OpenCV mode."
  else
    let c := config app in
    set_config app (mkConfig (threshold c) (blurAmount c) m (mode c)).

(** The threshold and blur sliders: [config.x = parseInt(target.value)]. *)
Definition setThreshold (app : EdgeDetectionApp) (v : Z) : EdgeDetectionApp :=
  let c := config app in
  set_config app (mkConfig v (blurAmount c) (method c) (mode c)).


(** What the input canvas and the clock hold when a frame is processed. *)
Record Frame : Type := mkFrame {
  canvasWidth : nat;
  canvasHeight : nat;
  pixels : list Z;      (* the video frame [drawImage] put on the canvas *)
  now : Z;              (* [Date.now()] *)
  handle : nat          (* the id [requestAnimationFrame] returns *)
}.

(** [inputCtx.getImageData(0, 0, width, height)]: an empty rectangle is an
    [IndexSizeError]. *)
Definition getImageData (f : Frame) : result ImageData :=
  if ((canvasWidth f =? 0) || (canvasHeight f =? 0))%nat
  then Throw (DOMException "IndexSizeError")
  else Ok (mkImageData (canvasWidth f) (canvasHeight f) (pixels f)).

(** [Math.round(n / d)] for [d > 0]: the nearest integer, halves upwards. *)
Definition Math_round (n d : Z) : Z := (2 * n + d) / (2 * d).

Definition updateFPS (c : FPSCounter) (currentTime : Z) : FPSCounter :=
  let count := frameCount c + 1 in
  if 1000 <=? currentTime - lastTime c
  then mkFPSCounter 0 currentTime
                    (Math_round (count * 1000) (currentTime - lastTime c))
  else mkFPSCounter count (lastTime c) (currentFPS c).

Section Driver.
Context {cv : CvLib} {ed : EdgeDetectorApi}.

(** The backend method a call descriptor stands for, with the default
    arguments the driver leaves out. *)
Definition run (p : OpenCVProcessor.t) (c : BackendCall)
           (imageData : ImageData) : result ImageData :=
  match c with
  | OpenCV_gaussianBlur ksize =>
      OpenCVProcessor.gaussianBlur p imageData ksize 0%Q
  | OpenCV_sobel =>
      OpenCVProcessor.sobel p imageData OpenCVProcessor.default_ksize
  | OpenCV_canny low high => OpenCVProcessor.canny p imageData low high
  | OpenCV_laplacian =>
      OpenCVProcessor.laplacian p imageData OpenCVProcessor.default_ksize
  | OpenCV_grayscale => OpenCVProcessor.grayscale p imageData
  | TypeScript_gaussianBlur radius => EdgeDetector_gaussianBlur imageData radius
  | TypeScript_sobel t => EdgeDetector_sobel imageData t
  | TypeScript_canny t => EdgeDetector_canny imageData t
  | TypeScript_roberts t => EdgeDetector_roberts imageData t
  | TypeScript_prewitt t => EdgeDetector_prewitt imageData t
  | TypeScript_laplacian t => EdgeDetector_laplacian imageData t
  end.

Definition invoke (p : OpenCVProcessor.t) (c : BackendCall)
           (imageData : ImageData) : Logged ImageData :=
  ([c], run p c imageData).

(** The part of [processFrame] between [getImageData] and [render]: the
    mode test and the two switches.  (The [default:] branches cannot be
    reached by a value of [EdgeDetectionMethod].) *)
Definition processImage (config : EdgeDetectionConfig)
           (opencvProcessor : OpenCVProcessor.t) (imageData : ImageData)
  : Logged ImageData :=
  if is_opencv (mode config) && OpenCVProcessor.ready opencvProcessor then
    imageData <~ (if 0 <? blurAmount config
                  then invoke opencvProcessor
                         (OpenCV_gaussianBlur (blurAmount config * 2 + 1))
                         imageData
                  else ret imageData) ;;
    match method config with
    | sobel => invoke opencvProcessor OpenCV_sobel imageData
    | canny =>
        invoke opencvProcessor
               (OpenCV_canny (threshold config) (threshold config * 2))
               imageData
    | laplacian => invoke opencvProcessor OpenCV_laplacian imageData
    | grayscale => invoke opencvProcessor OpenCV_grayscale imageData
    | roberts | prewitt =>
        imageData <~ (if 0 <? blurAmount config
                      then invoke opencvProcessor
                             (TypeScript_gaussianBlur (blurAmount config))
                             imageData
                      else ret imageData) ;;
        match method config with
        | roberts =>
            invoke opencvProcessor (TypeScript_roberts (threshold config))
                   imageData
        | _ =>
            invoke opencvProcessor (TypeScript_prewitt (threshold config))
                   imageData
        end
    end
  else
    imageData <~ (if 0 <? blurAmount config
                  then invoke opencvProcessor
                         (TypeScript_gaussianBlur (blurAmount config))
                         imageData
                  else ret imageData) ;;
    match method config with
    | sobel =>
        invoke opencvProcessor (TypeScript_sobel (threshold config)) imageData
    | canny =>
        invoke opencvProcessor (TypeScript_canny (threshold config)) imageData
    | roberts =>
        invoke opencvProcessor (TypeScript_roberts (threshold config)) imageData
    | prewitt =>
        invoke opencvProcessor (TypeScript_prewitt (threshold config)) imageData
    | laplacian =>
        invoke opencvProcessor (TypeScript_laplacian (threshold config))
               imageData
    | grayscale =>
        invoke opencvProcessor (TypeScript_sobel (threshold config)) imageData
    end.

(** The [try] block: grab the frame, process it. *)
Definition tryBlock (app : EdgeDetectionApp) (f : Frame) : Logged ImageData :=
  imageData <~ ([], getImageData f) ;;
  processImage (config app) (opencvProcessor app) imageData.

(** [processFrame]: nothing when processing is off; otherwise the [try]
    block, then on success [render] and [updateFPS], on an exception
    [console.error], and in both cases [requestAnimationFrame].  The
    result type is where an exception leaving [processFrame] would show. *)
Definition processFrame (app : EdgeDetectionApp) (f : Frame)
  : result EdgeDetectionApp :=
  if negb (isProcessing (state app)) then Ok app else
  let '(log, outcome) := tryBlock app f in
  let next := mkProcessingState (isProcessing (state app)) (Some (handle f)) in
  match outcome with
  | Ok res =>
      Ok (mkApp (opencvProcessor app) next (config app)
                (updateFPS (fpsCounter app) (now f))
                (console app) (rendered app ++ [res]) (alerts app)
                (calls app ++ log))
  | Throw error =>
      Ok (mkApp (opencvProcessor app) next (config app) (fpsCounter app)
                (console app ++ [error]) (rendered app) (alerts app)
                (calls app ++ log))
  end.

(** The animation loop over the successive frames, as long as none of the
    calls lets an exception out. *)
Fixpoint animationLoop (app : EdgeDetectionApp) (frames : list Frame)
  : result EdgeDetectionApp :=
  match frames with
  | [] => Ok app
  | f :: rest => app' <- processFrame app f ;; animationLoop app' rest
  end.

End Driver.

(** [onloadedmetadata] of [startWebcam]: processing is switched on. *)
Definition startProcessing (app : EdgeDetectionApp) : EdgeDetectionApp :=
  mkApp (opencvProcessor app)
        (mkProcessingState true (animationId (state app)))
        (config app) (fpsCounter app) (console app) (rendered app)
        (alerts app) (calls app).

(** [stopWebcam]: processing off, the pending animation frame cancelled. *)
Definition stopWebcam (app : EdgeDetectionApp) : EdgeDetectionApp :=
  mkApp (opencvProcessor app) (mkProcessingState false None)
        (config app) (fpsCounter app) (console app) (rendered app)
        (alerts app) (calls app).

(* ===================================================================== *)
(** ** Sample frames *)
(* ===================================================================== *)

Definition grayRow (l : list Z) : list Z := flat_map gray_to_rgba l.

(** A 4x4 frame, left half black and right half white. *)
Definition stepEdge : ImageData :=
  mkImageData 4 4 (grayRow [0; 0; 255; 255] ++ grayRow [0; 0; 255; 255]
                   ++ grayRow [0; 0; 255; 255] ++ grayRow [0; 0; 255; 255]).

(** One opaque pure-red pixel. *)
Definition redPixel : ImageData := mkImageData 1 1 [255; 0; 0; 255].

Definition readyProcessor : OpenCVProcessor.t := OpenCVProcessor.mk true.

(** The application once the camera runs, before and after OpenCV loads. *)
Definition runningApp : EdgeDetectionApp := startProcessing (newApp 0).
Definition readyApp : EdgeDetectionApp :=
  startProcessing (initializeOpenCV_resolved (newApp 0)).

Definition stepEdgeFrame : Frame := mkFrame 4 4 (data stepEdge) 16 1.

(** A frame grabbed while the canvas is still empty. *)
Definition emptyFrame : Frame := mkFrame 0 0 [] 16 1.

(** TypeScript mode entered after 'grayscale' was chosen in OpenCV mode. *)
Definition typescriptGrayscaleApp : EdgeDetectionApp :=
  selectMode (selectAlgorithm readyApp grayscale) typescript.

(* ===================================================================== *)
(** ** Further views of the wrapper and of the application *)
(* ===================================================================== *)

(** A frame as the canvas hands it out once the video has a size. *)
Definition valid_frame (f : Frame) : Prop :=
  (0 < canvasWidth f)%nat /\ (0 < canvasHeight f)%nat /\
  length (pixels f) = (4 * (canvasWidth f * canvasHeight f))%nat /\
  Forall is_u8 (pixels f).

Definition is_blur_call (c : BackendCall) : bool :=
  match c with
  | OpenCV_gaussianBlur _ | TypeScript_gaussianBlur _ => true
  | _ => false
  end.

(** The OpenCV call of the first switch of [processFrame], for the four
    methods it sends to the wrapper. *)
Definition opencvCall (config : EdgeDetectionConfig) : BackendCall :=
  match method config with
  | canny => OpenCV_canny (threshold config) (threshold config * 2)
  | laplacian => OpenCV_laplacian
  | grayscale => OpenCV_grayscale
  | _ => OpenCV_sobel
  end.

Definition in_opencv_wrapper (m : EdgeDetectionMethod) : bool :=
  match m with
  | roberts | prewitt => false
  | _ => true
  end.

Section Views.
Context {cv : CvLib} {ed : EdgeDetectorApi}.

(** The 16-bit matrix [laplacian] takes the absolute value of. *)
Definition laplacianResponse (imageData : ImageData) (ksize : Z)
  : result Mat :=
  let src := matFromImageData imageData in
  gray <- cvtColor src COLOR_RGBA2GRAY ;;
  blurred <- GaussianBlur gray (3, 3) 0%Q ;;
  Laplacian blurred CV_16S ksize.

(** [onloadedmetadata] of [startWebcam]: the canvases take the size of the
    video, processing is switched on and [processFrame] is called. *)
Definition onloadedmetadata (app : EdgeDetectionApp) (f : Frame)
  : result EdgeDetectionApp :=
  processFrame (startProcessing app) f.




End Views.

Definition alert_opencv_not_loaded : string :=
  "OpenCV.js is not loaded yet. Please wait or use TypeScript mode.".



(* ===================================================================== *)
(** ** The reference instance meets the contracts *)
(* ===================================================================== *)

Lemma mat_okb_true (m : Mat) : mat_ok m -> CvModel.mat_okb m = true.
Proof. unfold mat_ok, CvModel.mat_okb. intros ->. apply Nat.eqb_refl. Qed.

Lemma is8U_true (m : Mat) : depth m = CV_8U -> CvModel.is8U m = true.
Proof. unfold CvModel.is8U. intros ->. reflexivity. Qed.

Lemma length_filter2D b k post nr nc ch d :
  length (filter2D b k post nr nc ch d) = (nr * nc * ch)%nat.
Proof. unfold filter2D. now rewrite length_map, length_seq. Qed.

Lemma length_cannyEdges nr nc d low high :
  length (CvModel.cannyEdges nr nc d low high) = (nr * nc)%nat.
Proof. unfold CvModel.cannyEdges. now rewrite length_map, length_seq. Qed.

Lemma oddPositive_true (k : Z) : odd_positive k -> CvModel.oddPositive k = true.
Proof.
  intros [Hpos Hodd]. unfold CvModel.oddPositive.
  rewrite Hodd, andb_true_r. now apply Z.ltb_lt.
Qed.

#[export] Instance cv_model_laws : CvLaws cv_model.
Proof.
  constructor; cbn [cvtColor GaussianBlur Sobel convertScaleAbs addWeighted
                    Laplacian Canny cv_model].
  - intros m Hok H8 Hch. unfold CvModel.cvtColor.
    rewrite (mat_okb_true m Hok), (is8U_true m H8), Hch. cbn.
    eexists. split; [reflexivity|]. repeat split.
    unfold mat_ok, CvModel.rgba2gray. cbn.
    rewrite length_map, length_seq. lia.
  - intros m Hok H8 Hch. unfold CvModel.cvtColor.
    rewrite (mat_okb_true m Hok), (is8U_true m H8), Hch. reflexivity.
  - intros m k sigma Hok H8 Hk. unfold CvModel.GaussianBlur.
    rewrite (mat_okb_true m Hok), (is8U_true m H8), (oddPositive_true k Hk).
    cbn. destruct (k =? 1).
    + exists m. repeat split; assumption.
    + eexists. split; [reflexivity|]. repeat split.
      unfold mat_ok. cbn. apply length_filter2D.
  - intros m sigma Hok H8. unfold CvModel.GaussianBlur.
    rewrite (mat_okb_true m Hok), (is8U_true m H8). reflexivity.
  - intros m dx dy ksize Hok H8 Hch Hd Hk. unfold CvModel.Sobel.
    rewrite (mat_okb_true m Hok), (is8U_true m H8).
    assert (Hap : CvModel.apertureOk ksize = true)
      by (cbn in Hk; destruct Hk as [<-|[<-|[<-|[]]]]; reflexivity).
    assert (Hord : (0 <=? dx) && (0 <=? dy) && (0 <? dx + dy)
                   && (dx <? ksize) && (dy <? ksize) = true)
      by (cbn in Hk; destruct Hk as [<-|[<-|[<-|[]]]];
          destruct Hd as [Hd|Hd]; inversion Hd; reflexivity).
    rewrite Hap, Hord. cbn [andb negb].
    eexists. split; [reflexivity|]. repeat split.
    + cbn. assumption.
    + unfold mat_ok. cbn. apply length_filter2D.
  - reflexivity.
  - intros a alpha b beta gamma [Hr Hc] Ha Hb Hch. unfold CvModel.addWeighted.
    assert (Hs : CvModel.sameShape a b = true).
    { unfold CvModel.sameShape.
      rewrite Hr, Hc, Hch, !Nat.eqb_refl, (is8U_true a Ha), (is8U_true b Hb).
      reflexivity. }
    rewrite Hs. reflexivity.
  - intros m ksize Hok H8 Hch Hk. unfold CvModel.Laplacian.
    rewrite (mat_okb_true m Hok), (is8U_true m H8).
    assert (Hap : CvModel.apertureOk ksize = true)
      by (cbn in Hk; destruct Hk as [<-|[<-|[<-|[]]]]; reflexivity).
    rewrite Hap. cbn [andb negb].
    eexists. split; [reflexivity|]. repeat split.
    + cbn. assumption.
    + unfold mat_ok. cbn. apply length_filter2D.
  - intros m low high Hok H8 Hch. unfold CvModel.Canny.
    rewrite (mat_okb_true m Hok), (is8U_true m H8), Hch. cbn [andb negb Nat.eqb].
    eexists. split; [reflexivity|]. repeat split.
    unfold mat_ok. cbn. rewrite length_cannyEdges. lia.
Qed.

(* ===================================================================== *)
(** ** Lists and buffers *)
(* ===================================================================== *)

Lemma length_zipWith {A B C : Type} (f : A -> B -> C) (l1 : list A) (l2 : list B) :
  length l1 = length l2 -> length (zipWith f l1 l2) = length l1.
Proof.
  revert l2. induction l1 as [|a l1 IH]; intros [|b l2] H; cbn in *;
    try discriminate; [reflexivity|]. f_equal. apply IH. now injection H.
Qed.

Lemma nth_zipWith (f : Z -> Z -> Z) (l1 l2 : list Z) (i : nat) :
  (i < length l1)%nat -> length l1 = length l2 ->
  nth i (zipWith f l1 l2) 0 = f (nth i l1 0) (nth i l2 0).
Proof.
  revert l2 i. induction l1 as [|a l1 IH]; intros [|b l2] i Hi H; cbn in *;
    try lia; try discriminate.
  destruct i as [|i]; [reflexivity|]. apply IH; [lia|now injection H].
Qed.

Lemma nth_map_zero (f : Z -> Z) (l : list Z) (i : nat) :
  f 0 = 0 -> nth i (map f l) 0 = f (nth i l 0).
Proof. intros H. rewrite <- H at 1. apply map_nth. Qed.

Lemma length_flat_map_rgba (f : Z -> Z) (l : list Z) :
  length (flat_map (fun g => gray_to_rgba (f g)) l) = (4 * length l)%nat.
Proof. induction l as [|g l IH]; cbn in *; [reflexivity|]. rewrite IH. lia. Qed.

Lemma nth_flat_map_rgba (l : list Z) (i c : nat) :
  (i < length l)%nat -> (c < 4)%nat ->
  nth (4 * i + c) (flat_map gray_to_rgba l) 0
  = if (c =? 3)%nat then 255 else nth i l 0.
Proof.
  revert i. induction l as [|g l IH]; intros i Hi Hc; cbn in Hi; [lia|].
  destruct i as [|i].
  - do 4 (destruct c as [|c]; [reflexivity|]). lia.
  - replace (4 * S i + c)%nat with (S (S (S (S (4 * i + c))))) by lia.
    cbn [flat_map gray_to_rgba app nth]. apply IH; lia.
Qed.

Lemma clamp_u8_id (v : Z) : is_u8 v -> clamp_u8 v = v.
Proof. unfold is_u8, clamp_u8. lia. Qed.

Lemma saturate_u8_range (v : Z) : is_u8 (saturate_u8 v).
Proof. unfold is_u8, saturate_u8. lia. Qed.

Lemma Uint8ClampedArray_id (d : list Z) :
  Forall is_u8 d -> Uint8ClampedArray d = d.
Proof.
  unfold Uint8ClampedArray. induction 1 as [|v d Hv _ IH]; cbn; [reflexivity|].
  now rewrite IH, clamp_u8_id.
Qed.

Lemma length_Uint8ClampedArray (d : list Z) :
  length (Uint8ClampedArray d) = length d.
Proof. apply length_map. Qed.

(** The DOM constructor accepts a buffer of four samples per pixel. *)
Lemma newImageData_ok (d : list Z) (sw sh : nat) :
  (0 < sw)%nat -> (0 < sh)%nat -> length d = (4 * (sw * sh))%nat ->
  newImageData d sw sh = Ok (mkImageData sw sh d).
Proof.
  intros Hw Hh Hlen. unfold newImageData.
  assert (H4 : (length d / 4 = sw * sh)%nat)
    by (rewrite Hlen, Nat.mul_comm; apply Nat.div_mul; lia).
  assert (Hm : (length d mod 4 = 0)%nat)
    by (rewrite Hlen, Nat.mul_comm; apply Nat.Div0.mod_mul).
  assert (Hs : ((sw * sh) mod sw = 0)%nat)
    by (rewrite Nat.mul_comm; apply Nat.Div0.mod_mul).
  assert (Hd : ((sw * sh) / sw = sh)%nat)
    by (rewrite Nat.mul_comm; apply Nat.div_mul; lia).
  rewrite Hm, H4, Hs, Hd, !Nat.eqb_refl.
  replace (sw =? 0)%nat with false by (symmetry; apply Nat.eqb_neq; lia).
  replace (sh =? 0)%nat with false by (symmetry; apply Nat.eqb_neq; lia).
  replace (length d =? 0)%nat with false by (symmetry; apply Nat.eqb_neq; nia).
  reflexivity.
Qed.

Lemma valid_image_mat (img : ImageData) :
  valid_image img ->
  mat_ok (matFromImageData img) /\ depth (matFromImageData img) = CV_8U
  /\ channels (matFromImageData img) = 4%nat.
Proof.
  intros (_ & _ & Hlen & _). unfold mat_ok. cbn. repeat split. lia.
Qed.

(* ===================================================================== *)
(** ** The wrapper on a ready backend *)
(* ===================================================================== *)

(** Take the matrix a size contract promises and step over the call. *)
Ltac step_law H :=
  let g := fresh "m" in
  let E := fresh "E" in
  let Hr := fresh "Hrows" in
  let Hc := fresh "Hcols" in
  let Hd := fresh "Hdepth" in
  let Hch := fresh "Hchan" in
  let Hok := fresh "Hok" in
  destruct H as (g & E & [Hr Hc] & Hd & Hch & Hok);
  rewrite E; cbn [bind].

Section WrapperFacts.
Context {cv : CvLib} {laws : CvLaws cv}.

Lemma toImageData_rgba (m : Mat) :
  (0 < rows m)%nat -> (0 < cols m)%nat -> channels m = 4%nat -> mat_ok m ->
  OpenCVProcessor.toImageData m
  = Ok (mkImageData (cols m) (rows m) (Uint8ClampedArray (mdata m))).
Proof.
  intros Hr Hc Hch Hok. unfold OpenCVProcessor.toImageData.
  apply newImageData_ok; [assumption..|].
  rewrite length_Uint8ClampedArray, Hok, Hch. lia.
Qed.

(** Conversion of a single-channel 8-bit result back to a frame. *)
Lemma emit_gray (m : Mat) :
  (0 < rows m)%nat -> (0 < cols m)%nat ->
  mat_ok m -> depth m = CV_8U -> channels m = 1%nat ->
  (res <- cvtColor m COLOR_GRAY2RGBA ;; OpenCVProcessor.toImageData res)
  = Ok (mkImageData (cols m) (rows m)
          (Uint8ClampedArray (flat_map gray_to_rgba (mdata m)))).
Proof.
  intros Hr Hc Hok Hd Hch.
  rewrite (cvtColor_GRAY2RGBA m Hok Hd Hch). cbn [bind].
  apply toImageData_rgba; cbn; try assumption; try reflexivity.
  unfold mat_ok. cbn.
  rewrite (length_flat_map_rgba (fun g => g)), Hok, Hch. lia.
Qed.

Lemma emit_gray_dimensions (img : ImageData) (m : Mat) :
  valid_image img -> rows m = height img -> cols m = width img ->
  mat_ok m -> depth m = CV_8U -> channels m = 1%nat ->
  same_dimensions img
    (res <- cvtColor m COLOR_GRAY2RGBA ;; OpenCVProcessor.toImageData res).
Proof.
  intros (Hw & Hh & _) Hr Hc Hok Hd Hch.
  rewrite emit_gray by (rewrite ?Hr, ?Hc; assumption).
  eexists. split; [reflexivity|]. cbn. repeat split; try assumption.
  rewrite length_Uint8ClampedArray, (length_flat_map_rgba (fun g => g)), Hok, Hch.
  lia.
Qed.

(** [sobel] is its stages followed by the conversion to a frame. *)
Lemma sobel_stages (p : OpenCVProcessor.t) (img : ImageData) (ksize : Z) :
  OpenCVProcessor.sobel p img ksize
  = if negb (OpenCVProcessor.isReady p)
    then Throw OpenCVProcessor.notInitialized
    else st <- OpenCVProcessor.sobelStages img ksize ;;
         res <- cvtColor (OpenCVProcessor.edges st) COLOR_GRAY2RGBA ;;
         OpenCVProcessor.toImageData res.
Proof.
  unfold OpenCVProcessor.sobel, OpenCVProcessor.sobelStages.
  destruct (OpenCVProcessor.isReady p); cbn [negb]; [|reflexivity].
  repeat match goal with
    | |- context [bind ?r _] =>
        lazymatch r with
        | bind _ _ => fail
        | _ => destruct r; cbn [bind OpenCVProcessor.edges]; try reflexivity
        end
    end.
Qed.

(** The stages of [sobel] all succeed, the gradients have the size of the
    frame, and the emitted matrix is the weighted sum of their saturated
    absolute values. *)
Lemma sobelStages_ok (img : ImageData) (ksize : Z) :
  valid_image img -> In ksize [3; 5; 7] ->
  exists st,
    OpenCVProcessor.sobelStages img ksize = Ok st
    /\ length (mdata (OpenCVProcessor.gradX st)) = (width img * height img)%nat
    /\ length (mdata (OpenCVProcessor.gradY st)) = (width img * height img)%nat
    /\ OpenCVProcessor.edges st
       = mkMat (height img) (width img) CV_8U 1
           (zipWith (fun x y =>
                       saturate_u8 (cvRound ((1 # 2) * inject_Z x
                                             + (1 # 2) * inject_Z y + 0)%Q))
              (map (fun v => saturate_u8 (Z.abs v))
                   (mdata (OpenCVProcessor.gradX st)))
              (map (fun v => saturate_u8 (Z.abs v))
                   (mdata (OpenCVProcessor.gradY st)))).
Proof.
  intros Hv Hk. destruct (valid_image_mat img Hv) as (Hok & Hd & Hch).
  unfold OpenCVProcessor.sobelStages.
  step_law (cvtColor_RGBA2GRAY _ Hok Hd Hch).
  cbn in Hrows, Hcols.
  assert (H3 : odd_positive 3) by (split; [lia|reflexivity]).
  step_law (GaussianBlur_size m 3 0%Q Hok0 Hdepth H3).
  rewrite Hchan in Hchan0.
  step_law (Sobel_size m0 1 0 ksize Hok1 Hdepth0 Hchan0 (or_introl eq_refl) Hk).
  step_law (Sobel_size m0 0 1 ksize Hok1 Hdepth0 Hchan0 (or_intror eq_refl) Hk).
  rewrite !convertScaleAbs_abs. cbn [bind].
  rewrite addWeighted_sum;
    [|split; cbn; congruence|reflexivity|reflexivity|cbn; congruence].
  cbn [bind]. eexists. split; [reflexivity|]. cbn.
  unfold mat_ok in Hok2, Hok3.
  repeat split.
  - rewrite Hok2, Hchan1. nia.
  - rewrite Hok3, Hchan2. nia.
  - f_equal; congruence.
Qed.

End WrapperFacts.

Section WrapperDimensions.
Context {cv : CvLib} {laws : CvLaws cv}.
Variable p : OpenCVProcessor.t.
Variable img : ImageData.
Hypothesis Hready : OpenCVProcessor.isReady p = true.
Hypothesis Hvalid : valid_image img.

Lemma grayscale_dimensions :
  same_dimensions img (OpenCVProcessor.grayscale p img).
Proof.
  destruct (valid_image_mat img Hvalid) as (Hok & Hd & Hch).
  unfold OpenCVProcessor.grayscale. rewrite Hready. cbn [negb].
  step_law (cvtColor_RGBA2GRAY _ Hok Hd Hch).
  now apply emit_gray_dimensions.
Qed.

Lemma gaussianBlur_dimensions (ksize : Z) (sigma : Q) :
  odd_positive ksize ->
  same_dimensions img (OpenCVProcessor.gaussianBlur p img ksize sigma).
Proof.
  intros Hk. destruct (valid_image_mat img Hvalid) as (Hok & Hd & Hch).
  destruct Hvalid as (Hw & Hh & _).
  unfold OpenCVProcessor.gaussianBlur. rewrite Hready. cbn [negb].
  step_law (GaussianBlur_size _ ksize sigma Hok Hd Hk).
  cbn in Hrows, Hcols, Hchan.
  rewrite toImageData_rgba by (rewrite ?Hrows, ?Hcols; assumption).
  eexists. split; [reflexivity|]. cbn. repeat split; try assumption.
  rewrite length_Uint8ClampedArray, Hok0, Hchan. lia.
Qed.

Lemma sobel_dimensions (ksize : Z) :
  In ksize [3; 5; 7] ->
  same_dimensions img (OpenCVProcessor.sobel p img ksize).
Proof.
  intros Hk. rewrite sobel_stages, Hready. cbn [negb].
  destruct (sobelStages_ok img ksize Hvalid Hk) as (st & E & Lx & Ly & Ee).
  rewrite E. cbn [bind]. rewrite Ee.
  apply emit_gray_dimensions; try assumption; try reflexivity.
  unfold mat_ok. cbn.
  rewrite length_zipWith; rewrite !length_map; lia.
Qed.

Lemma canny_dimensions (lowThreshold highThreshold : Z) :
  same_dimensions img
    (OpenCVProcessor.canny p img lowThreshold highThreshold).
Proof.
  destruct (valid_image_mat img Hvalid) as (Hok & Hd & Hch).
  unfold OpenCVProcessor.canny. rewrite Hready. cbn [negb].
  step_law (cvtColor_RGBA2GRAY _ Hok Hd Hch).
  step_law (Canny_size m lowThreshold highThreshold Hok0 Hdepth Hchan).
  cbn in Hrows, Hcols.
  apply emit_gray_dimensions; try assumption; congruence.
Qed.

Lemma laplacian_dimensions (ksize : Z) :
  In ksize [3; 5; 7] ->
  same_dimensions img (OpenCVProcessor.laplacian p img ksize).
Proof.
  intros Hk. destruct (valid_image_mat img Hvalid) as (Hok & Hd & Hch).
  unfold OpenCVProcessor.laplacian. rewrite Hready. cbn [negb].
  step_law (cvtColor_RGBA2GRAY _ Hok Hd Hch).
  assert (H3 : odd_positive 3) by (split; [lia|reflexivity]).
  step_law (GaussianBlur_size m 3 0%Q Hok0 Hdepth H3).
  rewrite Hchan in Hchan0.
  step_law (Laplacian_size m0 ksize Hok1 Hdepth0 Hchan0 Hk).
  rewrite convertScaleAbs_abs. cbn [bind].
  cbn in Hrows, Hcols.
  apply emit_gray_dimensions; try assumption; cbn; try congruence.
  unfold mat_ok in *. cbn. now rewrite length_map.
Qed.

End WrapperDimensions.

(* ===================================================================== *)
(** ** The operators modelled from the spec *)
(* ===================================================================== *)

Lemma toGrayscale_ok (img : ImageData) :
  valid_image img ->
  exists gray, EdgeDetector.toGrayscale img = Ok gray
               /\ length gray = (width img * height img)%nat.
Proof.
  intros (_ & _ & Hlen & _). unfold EdgeDetector.toGrayscale.
  rewrite Hlen, Nat.eqb_refl. cbn [negb].
  eexists. split; [reflexivity|]. now rewrite length_map, length_seq.
Qed.

Lemma emit_dimensions (img : ImageData) (gray : list Z) :
  length gray = (width img * height img)%nat ->
  same_dimensions img
    (Ok (EdgeDetector.emit (width img) (height img) gray)).
Proof.
  intros Hlen. eexists. split; [reflexivity|]. cbn. repeat split.
  now rewrite length_flat_map_rgba, Hlen.
Qed.

Lemma roberts_dimensions (img : ImageData) (threshold : Z) :
  valid_image img -> same_dimensions img (EdgeDetector.roberts img threshold).
Proof.
  intros Hv. destruct (toGrayscale_ok img Hv) as (gray & E & Hlen).
  unfold EdgeDetector.roberts. rewrite E. cbn [bind].
  apply emit_dimensions. now rewrite length_map, length_seq.
Qed.

Lemma prewitt_dimensions (img : ImageData) (threshold : Z) :
  valid_image img -> same_dimensions img (EdgeDetector.prewitt img threshold).
Proof.
  intros Hv. destruct (toGrayscale_ok img Hv) as (gray & E & Hlen).
  unfold EdgeDetector.prewitt. rewrite E. cbn [bind].
  unfold EdgeDetector.convolve. cbn [bind length Nat.even Nat.leb orb
    EdgeDetector.prewittX EdgeDetector.prewittY].
  apply emit_dimensions.
  rewrite length_zipWith; rewrite !length_filter2D; lia.
Qed.

(* ===================================================================== *)
(** ** The frame driver *)
(* ===================================================================== *)

(** Split [processImage] along the mode test, the blur test, the method
    and the outcome of each backend call. *)
Ltac destruct_runs :=
  repeat match goal with
    | |- context [run ?p ?c ?i] =>
        let r := fresh "r" in
        destruct (run p c i) as [r|r] eqn:?; cbn [fst snd app]
    end.

Ltac driver_cases config :=
  destruct config as [t b m md];
  unfold processImage, invoke, ret, bindL; cbn [threshold blurAmount method mode];
  destruct md, m; cbn [is_opencv andb];
  try match goal with
    | |- context [OpenCVProcessor.ready ?p] =>
        destruct (OpenCVProcessor.ready p) eqn:?
    end;
  destruct (0 <? b) eqn:?; cbn [fst snd app];
  destruct_runs.

Section DriverFacts.
Context {cv : CvLib} {ed : EdgeDetectorApi}.

(** While the backend is not ready the mode setting is immaterial. *)
Lemma processImage_not_ready (config : EdgeDetectionConfig)
      (p : OpenCVProcessor.t) (img : ImageData) :
  OpenCVProcessor.ready p = false ->
  processImage config p img
  = processImage (mkConfig (threshold config) (blurAmount config)
                           (method config) typescript) p img.
Proof.
  intros Hr. unfold processImage. cbn [mode threshold blurAmount method].
  rewrite Hr, andb_false_r. reflexivity.
Qed.

Lemma processImage_typescript_calls (config : EdgeDetectionConfig)
      (p : OpenCVProcessor.t) (img : ImageData) :
  is_opencv (mode config) && OpenCVProcessor.ready p = false ->
  Forall (fun c => is_OpenCV_call c = false) (fst (processImage config p img)).
Proof.
  intros Hm. unfold processImage. rewrite Hm.
  destruct config as [t b m md]. unfold invoke, ret, bindL.
  cbn [threshold blurAmount method mode].
  destruct m, (0 <? b); cbn [fst snd app]; destruct_runs;
    repeat constructor.
Qed.

(** The calls of a frame are those of its [try] block. *)
Lemma tryBlock_calls (app : EdgeDetectionApp) (f : Frame) :
  fst (tryBlock app f)
  = match getImageData f with
    | Ok img => fst (processImage (config app) (opencvProcessor app) img)
    | Throw _ => []
    end.
Proof.
  unfold tryBlock, bindL. destruct (getImageData f); [|reflexivity].
  destruct (processImage _ _ _). reflexivity.
Qed.

Lemma tryBlock_outcome (app : EdgeDetectionApp) (f : Frame) :
  snd (tryBlock app f)
  = match getImageData f with
    | Ok img => snd (processImage (config app) (opencvProcessor app) img)
    | Throw e => Throw e
    end.
Proof.
  unfold tryBlock, bindL. destruct (getImageData f); [|reflexivity].
  destruct (processImage _ _ _). reflexivity.
Qed.

(** A processed frame ends in exactly one of two ways, and never with an
    exception leaving [processFrame]. *)
Lemma processFrame_processing (app : EdgeDetectionApp) (f : Frame) :
  isProcessing (state app) = true ->
  exists app',
    processFrame app f = Ok app'
    /\ state app' = mkProcessingState true (Some (handle f))
    /\ opencvProcessor app' = opencvProcessor app
    /\ config app' = config app
    /\ calls app' = calls app ++ fst (tryBlock app f)
    /\ match snd (tryBlock app f) with
       | Ok res => rendered app' = rendered app ++ [res]
                   /\ console app' = console app
       | Throw error => console app' = console app ++ [error]
                        /\ rendered app' = rendered app
       end.
Proof.
  intros Hp. unfold processFrame. rewrite Hp. cbn [negb].
  destruct (tryBlock app f) as [log [res|error]]; cbn [fst snd];
    eexists; (split; [reflexivity|]); cbn; repeat split.
Qed.

Lemma processFrame_idle (app : EdgeDetectionApp) (f : Frame) :
  isProcessing (state app) = false -> processFrame app f = Ok app.
Proof. intros Hp. unfold processFrame. now rewrite Hp. Qed.

(** The loop goes through every frame: each one adds a rendered result or
    a console entry. *)
Lemma animationLoop_total (frames : list Frame) (app : EdgeDetectionApp) :
  isProcessing (state app) = true ->
  exists app',
    animationLoop app frames = Ok app'
    /\ isProcessing (state app') = true
    /\ (length (rendered app') + length (console app')
        = length (rendered app) + length (console app) + length frames)%nat.
Proof.
  revert app. induction frames as [|f frames IH]; intros app Hp.
  - exists app. cbn. repeat split; [assumption|lia].
  - destruct (processFrame_processing app f Hp)
      as (app1 & E & Hs & _ & _ & _ & Hout).
    cbn [animationLoop]. rewrite E. cbn [bind].
    destruct (IH app1) as (app' & E' & Hp' & Hn); [now rewrite Hs|].
    exists app'. repeat split; try assumption.
    rewrite Hn. cbn [length].
    destruct (snd (tryBlock app f)); destruct Hout as [-> ->];
      rewrite length_app; cbn; lia.
Qed.

End DriverFacts.

Lemma valid_stepEdge : valid_image stepEdge.
Proof.
  unfold valid_image. cbn. repeat split; try lia.
  repeat constructor; unfold is_u8; lia.
Qed.

Lemma valid_redPixel : valid_image redPixel.
Proof.
  unfold valid_image. cbn. repeat split; try lia.
  repeat constructor; unfold is_u8; lia.
Qed.

(** The diagnostic [getBuildInfo] is the one method of the wrapper that
    answers, rather than throws, before the library is ready. *)
Lemma getBuildInfo_not_ready (cv : CvLib) (p : OpenCVProcessor.t) :
  OpenCVProcessor.isReady p = false ->
  OpenCVProcessor.getBuildInfo p = Ok "OpenCV not initialized"%string.
Proof. intros H. unfold OpenCVProcessor.getBuildInfo. now rewrite H. Qed.

(** With a blur amount above 0 in ready OpenCV mode, a roberts frame is
    blurred by OpenCV before the TypeScript branch blurs it again. *)
Lemma roberts_calls_with_blur :
  fst (@processImage cv_model EdgeDetector_spec (mkConfig 40 1 roberts opencv)
                     readyProcessor stepEdge)
  = [OpenCV_gaussianBlur 3; TypeScript_gaussianBlur 1; TypeScript_roberts 40].
Proof. vm_compute. reflexivity. Qed.

(** A TypeScript-mode configuration with method 'grayscale' is reachable:
    choose 'grayscale' in OpenCV mode, then switch to TypeScript mode. *)
Lemma typescriptGrayscaleApp_config :
  config typescriptGrayscaleApp = mkConfig 40 1 grayscale typescript.
Proof. reflexivity. Qed.

(* ===================================================================== *)
(** ** Rounding of the weighted sum *)
(* ===================================================================== *)

(** [cvRound (a/2 + b/2)] is within one half of the exact value, exact on
    an even sum and even on an odd one. *)
Lemma cvRound_half_sum (a b : Z) :
  let r := cvRound ((1 # 2) * inject_Z a + (1 # 2) * inject_Z b + 0)%Q in
  2 * r - 1 <= a + b <= 2 * r + 1
  /\ (Z.even (a + b) = true -> 2 * r = a + b)
  /\ (Z.even (a + b) = false -> Z.even r = true).
Proof.
  unfold cvRound, Qfloor, Qcompare, Qminus, Qplus, Qmult, Qopp, inject_Z.
  cbn [Qnum Qden Pos.mul].
  set (n := (1 * a * 2 + 1 * b * 2) * 1 + 0 * 4).
  assert (Hn : n = 2 * (a + b)) by (subst n; lia).
  pose proof (Z.div_mod n 4 ltac:(lia)) as Hdm.
  pose proof (Z.mod_pos_bound n 4 ltac:(lia)) as Hb.
  set (q := n / 4) in *. set (r := n mod 4) in *.
  cbn zeta.
  destruct (Z.compare_spec ((n * 1 + - q * 4) * 2) (1 * 4)) as [Hc|Hc|Hc];
    [destruct (Z.even q) eqn:Hq|..]; (repeat split; try lia); intros He;
    try (apply Z.even_spec in He; destruct He as [k Hk]; lia);
    try assumption;
    try (rewrite Z.even_add, Hq; reflexivity).
  rewrite <- Z.negb_odd in He.
  apply negb_false_iff, Z.odd_spec in He. destruct He as [k Hk]. lia.
Qed.

Section SobelPixels.
Context {cv : CvLib} {laws : CvLaws cv}.

(** The frame [sobel] returns, sample by sample. *)
Lemma sobel_pixels (p : OpenCVProcessor.t) (img : ImageData) (ksize : Z) :
  OpenCVProcessor.isReady p = true -> valid_image img ->
  In ksize [3; 5; 7] ->
  exists st out,
    OpenCVProcessor.sobelStages img ksize = Ok st
    /\ OpenCVProcessor.sobel p img ksize = Ok out
    /\ forall i c, (i < width img * height img)%nat -> (c < 4)%nat ->
         nth (4 * i + c) (data out) 0
         = if (c =? 3)%nat then 255
           else cvRound
                  ((1 # 2) * inject_Z
                     (saturate_u8
                        (Z.abs (nth i (mdata (OpenCVProcessor.gradX st)) 0%Z)))
                   + (1 # 2) * inject_Z
                       (saturate_u8
                          (Z.abs (nth i (mdata (OpenCVProcessor.gradY st)) 0%Z)))
                   + 0)%Q.
Proof.
  intros Hready Hvalid Hk.
  destruct (sobelStages_ok img ksize Hvalid Hk) as (st & E & Lx & Ly & Ee).
  destruct Hvalid as (Hw & Hh & Hlen & _).
  rewrite sobel_stages, Hready, E. cbn [negb bind].
  assert (Hzip : length (mdata (OpenCVProcessor.edges st))
                 = (width img * height img)%nat).
  { rewrite Ee. cbn. rewrite length_zipWith; rewrite !length_map; lia. }
  rewrite emit_gray;
    [|rewrite Ee; cbn; try assumption; try reflexivity..].
  2:{ unfold mat_ok. rewrite <- Ee, Hzip. rewrite Ee. cbn. lia. }
  exists st. eexists. split; [reflexivity|]. split; [reflexivity|].
  intros i c Hi Hc. cbn [data]. unfold Uint8ClampedArray.
  rewrite nth_map_zero by reflexivity.
  rewrite nth_flat_map_rgba by (rewrite ?Hzip; assumption).
  destruct (c =? 3)%nat; [reflexivity|].
  rewrite Ee. cbn [mdata].
  rewrite nth_zipWith by (rewrite !length_map; lia).
  rewrite !(nth_map_zero (fun v => saturate_u8 (Z.abs v))) by reflexivity.
  rewrite clamp_u8_id by apply saturate_u8_range.
  set (a := saturate_u8 (Z.abs (nth i (mdata (OpenCVProcessor.gradX st)) 0))).
  set (b := saturate_u8 (Z.abs (nth i (mdata (OpenCVProcessor.gradY st)) 0))).
  pose proof (saturate_u8_range
                (Z.abs (nth i (mdata (OpenCVProcessor.gradX st)) 0))) as Ha.
  pose proof (saturate_u8_range
                (Z.abs (nth i (mdata (OpenCVProcessor.gradY st)) 0))) as Hb.
  fold a in Ha. fold b in Hb. unfold is_u8 in Ha, Hb.
  destruct (cvRound_half_sum a b) as (Hr & _). cbn zeta in Hr.
  unfold saturate_u8 at 1. lia.
Qed.

End SobelPixels.

(* ===================================================================== *)
(** ** Properties of the operators and of the driver *)
(* ===================================================================== *)


(** C2. For every valid input buffer, every operator returns an RGBA buffer
    of the width and height of its input: the five operators of the OpenCV
    wrapper on a ready backend (for any library that keeps its size
    contracts, any thresholds, an aperture of 3, 5 or 7 and an odd blur
    size), and Roberts and Prewitt, which exist only in the TypeScript
    implementation and are taken from the spec's description. *)
Theorem operators_preserve_dimensions
  (cv : CvLib) (laws : CvLaws cv) (p : OpenCVProcessor.t) (img : ImageData)
  (ksize blurSize lowThreshold highThreshold threshold : Z) (sigma : Q) :
  OpenCVProcessor.isReady p = true ->
  valid_image img ->
  In ksize [3; 5; 7] ->
  odd_positive blurSize ->
  same_dimensions img (OpenCVProcessor.grayscale p img)
  /\ same_dimensions img (OpenCVProcessor.gaussianBlur p img blurSize sigma)
  /\ same_dimensions img (OpenCVProcessor.sobel p img ksize)
  /\ same_dimensions img
       (OpenCVProcessor.canny p img lowThreshold highThreshold)
  /\ same_dimensions img (OpenCVProcessor.laplacian p img ksize)
  /\ same_dimensions img (EdgeDetector.roberts img threshold)
  /\ same_dimensions img (EdgeDetector.prewitt img threshold).
Proof.
  intros Hready Hvalid Hk Hb. repeat split.
  - now apply grayscale_dimensions.
  - now apply gaussianBlur_dimensions.
  - now apply sobel_dimensions.
  - now apply canny_dimensions.
  - now apply laplacian_dimensions.
  - now apply roberts_dimensions.
  - now apply prewitt_dimensions.
Qed.

Lemma operators_preserve_dimensions_witness :
  OpenCVProcessor.isReady readyProcessor = true
  /\ valid_image stepEdge
  /\ In 3 [3; 5; 7]
  /\ odd_positive 3
  /\ (same_dimensions stepEdge (OpenCVProcessor.grayscale readyProcessor stepEdge)
      /\ same_dimensions stepEdge
           (OpenCVProcessor.gaussianBlur readyProcessor stepEdge 3 0%Q)
      /\ same_dimensions stepEdge (OpenCVProcessor.sobel readyProcessor stepEdge 3)
      /\ same_dimensions stepEdge
           (OpenCVProcessor.canny readyProcessor stepEdge 50 150)
      /\ same_dimensions stepEdge
           (OpenCVProcessor.laplacian readyProcessor stepEdge 3)
      /\ same_dimensions stepEdge (EdgeDetector.roberts stepEdge 40)
      /\ same_dimensions stepEdge (EdgeDetector.prewitt stepEdge 40)).
Proof.
  assert (H3 : In 3 [3; 5; 7]) by (left; reflexivity).
  assert (Ho : odd_positive 3) by (split; [lia|reflexivity]).
  split; [reflexivity|]. split; [exact valid_stepEdge|].
  split; [exact H3|]. split; [exact Ho|].
  exact (operators_preserve_dimensions cv_model cv_model_laws readyProcessor
           stepEdge 3 3 50 150 40 0%Q eq_refl valid_stepEdge H3 Ho).
Defined.

(** C3. While the OpenCV backend is not ready, each of its five operations
    fails with the not-initialized error, and the driver, by its test of
    [ready()], sends the frame to the TypeScript backend whatever the mode:
    it makes no OpenCV call; the calls it makes are the TypeScript blur
    (for a blur amount above 0) followed, once the blur has returned, by
    the TypeScript operator of the configured method with the configured
    threshold; and the outcome of the frame is that operator's outcome on
    the blurred frame. *)
Theorem not_ready_routes_to_typescript
  (cv : CvLib) (ed : EdgeDetectorApi) (app : EdgeDetectionApp) (f : Frame)
  (img : ImageData) (lowThreshold highThreshold ksize : Z) (sigma : Q) :
  OpenCVProcessor.ready (opencvProcessor app) = false ->
  let p := opencvProcessor app in
  let c := config app in
  let blurred :=
    if 0 <? blurAmount c
    then EdgeDetector_gaussianBlur img (blurAmount c) else Ok img in
  (OpenCVProcessor.canny p img lowThreshold highThreshold
     = Throw OpenCVProcessor.notInitialized
   /\ OpenCVProcessor.grayscale p img = Throw OpenCVProcessor.notInitialized
   /\ OpenCVProcessor.sobel p img ksize = Throw OpenCVProcessor.notInitialized
   /\ OpenCVProcessor.gaussianBlur p img ksize sigma
        = Throw OpenCVProcessor.notInitialized
   /\ OpenCVProcessor.laplacian p img ksize
        = Throw OpenCVProcessor.notInitialized)
  /\ Forall (fun call => is_OpenCV_call call = false) (fst (tryBlock app f))
  /\ processImage c p img
     = processImage (mkConfig (threshold c) (blurAmount c) (method c) typescript)
                    p img
  /\ fst (processImage c p img)
     = (if 0 <? blurAmount c
        then [TypeScript_gaussianBlur (blurAmount c)] else [])
       ++ match blurred with
          | Ok _ =>
              [match method c with
               | sobel | grayscale => TypeScript_sobel (threshold c)
               | canny => TypeScript_canny (threshold c)
               | roberts => TypeScript_roberts (threshold c)
               | prewitt => TypeScript_prewitt (threshold c)
               | laplacian => TypeScript_laplacian (threshold c)
               end]
          | Throw _ => []
          end
  /\ snd (processImage c p img)
     = (input <- blurred ;;
        match method c with
        | sobel | grayscale => EdgeDetector_sobel input (threshold c)
        | canny => EdgeDetector_canny input (threshold c)
        | roberts => EdgeDetector_roberts input (threshold c)
        | prewitt => EdgeDetector_prewitt input (threshold c)
        | laplacian => EdgeDetector_laplacian input (threshold c)
        end)
  /\ (getImageData f = Ok img -> tryBlock app f = processImage c p img).
Proof.
  intros Hr p c blurred. unfold OpenCVProcessor.ready in Hr.
  split; [|split; [|split; [|split; [|split]]]].
  - repeat split.
    + unfold OpenCVProcessor.canny. subst p. now rewrite Hr.
    + unfold OpenCVProcessor.grayscale. subst p. now rewrite Hr.
    + unfold OpenCVProcessor.sobel. subst p. now rewrite Hr.
    + unfold OpenCVProcessor.gaussianBlur. subst p. now rewrite Hr.
    + unfold OpenCVProcessor.laplacian. subst p. now rewrite Hr.
  - rewrite tryBlock_calls. destruct (getImageData f); [|constructor].
    apply processImage_typescript_calls.
    unfold OpenCVProcessor.ready. rewrite Hr. apply andb_false_r.
  - now apply processImage_not_ready.
  - subst blurred. unfold processImage, OpenCVProcessor.ready. subst p.
    rewrite Hr, andb_false_r. unfold invoke, bindL, ret. cbn [run].
    destruct (0 <? blurAmount c);
      [destruct (EdgeDetector_gaussianBlur img (blurAmount c))|];
      destruct (method c); reflexivity.
  - subst blurred. unfold processImage, OpenCVProcessor.ready. subst p.
    rewrite Hr, andb_false_r. unfold invoke, bindL, ret. cbn [run].
    destruct (0 <? blurAmount c);
      [destruct (EdgeDetector_gaussianBlur img (blurAmount c))|];
      destruct (method c); reflexivity.
  - intros Hf. subst p c. unfold tryBlock, bindL. rewrite Hf.
    destruct (processImage (config app) (opencvProcessor app) img).
    reflexivity.
Qed.

Lemma not_ready_routes_to_typescript_witness :
  OpenCVProcessor.ready (opencvProcessor runningApp) = false
  /\ (let p := opencvProcessor runningApp in
      let c := config runningApp in
      let blurred :=
        if 0 <? blurAmount c
        then EdgeDetector_gaussianBlur stepEdge (blurAmount c)
        else Ok stepEdge in
      (OpenCVProcessor.canny p stepEdge 50 150
         = Throw OpenCVProcessor.notInitialized
       /\ OpenCVProcessor.grayscale p stepEdge
          = Throw OpenCVProcessor.notInitialized
       /\ OpenCVProcessor.sobel p stepEdge 3
          = Throw OpenCVProcessor.notInitialized
       /\ OpenCVProcessor.gaussianBlur p stepEdge 3 0%Q
          = Throw OpenCVProcessor.notInitialized
       /\ OpenCVProcessor.laplacian p stepEdge 3
          = Throw OpenCVProcessor.notInitialized)
      /\ Forall (fun call => is_OpenCV_call call = false)
                (fst (tryBlock runningApp stepEdgeFrame))
      /\ processImage c p stepEdge
         = processImage
             (mkConfig (threshold c) (blurAmount c) (method c) typescript)
             p stepEdge
      /\ fst (processImage c p stepEdge)
         = (if 0 <? blurAmount c
            then [TypeScript_gaussianBlur (blurAmount c)] else [])
           ++ match blurred with
              | Ok _ =>
                  [match method c with
                   | sobel | grayscale => TypeScript_sobel (threshold c)
                   | canny => TypeScript_canny (threshold c)
                   | roberts => TypeScript_roberts (threshold c)
                   | prewitt => TypeScript_prewitt (threshold c)
                   | laplacian => TypeScript_laplacian (threshold c)
                   end]
              | Throw _ => []
              end
      /\ snd (processImage c p stepEdge)
         = (input <- blurred ;;
            match method c with
            | sobel | grayscale => EdgeDetector_sobel input (threshold c)
            | canny => EdgeDetector_canny input (threshold c)
            | roberts => EdgeDetector_roberts input (threshold c)
            | prewitt => EdgeDetector_prewitt input (threshold c)
            | laplacian => EdgeDetector_laplacian input (threshold c)
            end)
      /\ (getImageData stepEdgeFrame = Ok stepEdge ->
          tryBlock runningApp stepEdgeFrame = processImage c p stepEdge)).
Proof.
  split; [reflexivity|].
  exact (not_ready_routes_to_typescript cv_model EdgeDetector_spec runningApp
           stepEdgeFrame stepEdge 50 150 3 0%Q eq_refl).
Defined.



(** C5, as the spec states it, fails on the wrapper: with equal thresholds
    (and with reversed ones) Canny on a ready backend returns an edge map
    and raises nothing. *)
Lemma canny_equal_thresholds_do_not_raise :
  50 <= 50
  /\ ~ raises (@OpenCVProcessor.canny cv_model readyProcessor stepEdge 50 50)
  /\ 50 <= 150
  /\ ~ raises (@OpenCVProcessor.canny cv_model readyProcessor stepEdge 150 50).
Proof.
  split; [lia|]. split; [|split; [lia|]];
    intros [e He]; vm_compute in He; discriminate He.
Qed.

(** C5, amended. The Canny wrapper does not validate its thresholds: on a
    ready backend and a valid frame it passes every pair, in the order
    given, to the library's Canny and returns the edge map as a frame of
    the input's size; its one failure of its own is the not-initialized
    error, whatever the thresholds. *)
Theorem canny_forwards_any_thresholds
  (cv : CvLib) (laws : CvLaws cv) (p : OpenCVProcessor.t) (img : ImageData)
  (lowThreshold highThreshold : Z) :
  valid_image img ->
  (OpenCVProcessor.isReady p = true ->
   exists gray edgeMap,
     cvtColor (matFromImageData img) COLOR_RGBA2GRAY = Ok gray
     /\ Canny gray lowThreshold highThreshold = Ok edgeMap
     /\ OpenCVProcessor.canny p img lowThreshold highThreshold
        = Ok (mkImageData (width img) (height img)
                (Uint8ClampedArray (flat_map gray_to_rgba (mdata edgeMap)))))
  /\ (OpenCVProcessor.isReady p = false ->
      OpenCVProcessor.canny p img lowThreshold highThreshold
      = Throw OpenCVProcessor.notInitialized).
Proof.
  intros Hvalid. split; intros Hready; unfold OpenCVProcessor.canny;
    rewrite Hready; cbn [negb]; [|reflexivity].
  destruct (valid_image_mat img Hvalid) as (Hok & Hd & Hch).
  destruct Hvalid as (Hw & Hh & _).
  step_law (cvtColor_RGBA2GRAY _ Hok Hd Hch).
  step_law (Canny_size m lowThreshold highThreshold Hok0 Hdepth Hchan).
  cbn in Hrows, Hcols.
  exists m, m0. split; [reflexivity|]. split; [assumption|].
  rewrite emit_gray by (try assumption; congruence).
  do 2 f_equal; congruence.
Qed.

Lemma canny_forwards_any_thresholds_witness :
  valid_image stepEdge
  /\ ((OpenCVProcessor.isReady readyProcessor = true ->
       exists gray edgeMap,
         cvtColor (matFromImageData stepEdge) COLOR_RGBA2GRAY = Ok gray
         /\ Canny gray 50 50 = Ok edgeMap
         /\ OpenCVProcessor.canny readyProcessor stepEdge 50 50
            = Ok (mkImageData (width stepEdge) (height stepEdge)
                    (Uint8ClampedArray (flat_map gray_to_rgba (mdata edgeMap)))))
      /\ (OpenCVProcessor.isReady readyProcessor = false ->
          OpenCVProcessor.canny readyProcessor stepEdge 50 50
          = Throw OpenCVProcessor.notInitialized)).
Proof.
  split; [exact valid_stepEdge|].
  exact (canny_forwards_any_thresholds cv_model cv_model_laws readyProcessor
           stepEdge 50 50 valid_stepEdge).
Defined.

(** C6, as the spec states it, fails on the wrapper: on the step edge the
    horizontal gradient at pixel 1 is 764 and the vertical one 0, yet the
    emitted magnitude is 128, neither half of 764 nor that value clamped to
    8 bits. *)
Lemma sobel_magnitude_is_not_half_the_gradients :
  exists st out,
    @OpenCVProcessor.sobelStages cv_model stepEdge 3 = Ok st
    /\ @OpenCVProcessor.sobel cv_model readyProcessor stepEdge 3 = Ok out
    /\ nth 1 (mdata (OpenCVProcessor.gradX st)) 0 = 764
    /\ nth 1 (mdata (OpenCVProcessor.gradY st)) 0 = 0
    /\ px out 1 = 128
    /\ 2 * px out 1 <> Z.abs 764 + Z.abs 0
    /\ px out 1 <> Z.min 255 ((Z.abs 764 + Z.abs 0) / 2).
Proof.
  do 2 eexists. split; [vm_compute; reflexivity|].
  split; [vm_compute; reflexivity|].
  repeat split; try reflexivity; vm_compute; discriminate.
Qed.

(** C6, amended. For every valid frame and every pixel, the magnitude Sobel
    emits is the weighted sum [0.5 * min(|Gx|, 255) + 0.5 * min(|Gy|, 255)]
    of the two gradients each saturated to 8 bits, rounded to the nearest
    integer (ties to even), hence within one half of that sum; it is
    written to the three colour samples, with alpha 255. *)
Theorem sobel_weighted_sum_of_saturated_gradients
  (cv : CvLib) (laws : CvLaws cv) (p : OpenCVProcessor.t) (img : ImageData)
  (ksize : Z) :
  OpenCVProcessor.isReady p = true ->
  valid_image img ->
  In ksize [3; 5; 7] ->
  exists st out,
    OpenCVProcessor.sobelStages img ksize = Ok st
    /\ OpenCVProcessor.sobel p img ksize = Ok out
    /\ forall i, (i < width img * height img)%nat ->
         let ax := Z.min (Z.abs (nth i (mdata (OpenCVProcessor.gradX st)) 0)) 255 in
         let ay := Z.min (Z.abs (nth i (mdata (OpenCVProcessor.gradY st)) 0)) 255 in
         px out i = cvRound ((1 # 2) * inject_Z ax + (1 # 2) * inject_Z ay + 0)%Q
         /\ 2 * px out i - 1 <= ax + ay <= 2 * px out i + 1
         /\ nth (4 * i + 1) (data out) 0 = px out i
         /\ nth (4 * i + 2) (data out) 0 = px out i
         /\ nth (4 * i + 3) (data out) 0 = 255.
Proof.
  intros Hready Hvalid Hk.
  destruct (sobel_pixels p img ksize Hready Hvalid Hk) as (st & out & E & Eo & Hpx).
  exists st, out. split; [assumption|]. split; [assumption|].
  intros i Hi ax ay.
  assert (Hsat : forall v, saturate_u8 (Z.abs v) = Z.min (Z.abs v) 255)
    by (intros v; unfold saturate_u8; lia).
  pose proof (Hpx i 0%nat Hi ltac:(lia)) as H0.
  pose proof (Hpx i 1%nat Hi ltac:(lia)) as H1.
  pose proof (Hpx i 2%nat Hi ltac:(lia)) as H2.
  pose proof (Hpx i 3%nat Hi ltac:(lia)) as H3.
  cbn [Nat.eqb] in H0, H1, H2, H3. rewrite !Hsat in H0, H1, H2.
  fold ax ay in H0, H1, H2.
  unfold px. rewrite Nat.add_0_r in H0.
  rewrite H0, H1, H2, H3.
  pose proof (cvRound_half_sum ax ay) as (Hr & _). cbn zeta in Hr.
  repeat split; try reflexivity; apply Hr.
Qed.

Lemma sobel_weighted_sum_of_saturated_gradients_witness :
  OpenCVProcessor.isReady readyProcessor = true
  /\ valid_image stepEdge
  /\ In 3 [3; 5; 7]
  /\ exists st out,
       OpenCVProcessor.sobelStages stepEdge 3 = Ok st
       /\ OpenCVProcessor.sobel readyProcessor stepEdge 3 = Ok out
       /\ forall i, (i < width stepEdge * height stepEdge)%nat ->
            let ax :=
              Z.min (Z.abs (nth i (mdata (OpenCVProcessor.gradX st)) 0)) 255 in
            let ay :=
              Z.min (Z.abs (nth i (mdata (OpenCVProcessor.gradY st)) 0)) 255 in
            px out i
              = cvRound ((1 # 2) * inject_Z ax + (1 # 2) * inject_Z ay + 0)%Q
            /\ 2 * px out i - 1 <= ax + ay <= 2 * px out i + 1
            /\ nth (4 * i + 1) (data out) 0 = px out i
            /\ nth (4 * i + 2) (data out) 0 = px out i
            /\ nth (4 * i + 3) (data out) 0 = 255.
Proof.
  assert (H3 : In 3 [3; 5; 7]) by (left; reflexivity).
  split; [reflexivity|]. split; [exact valid_stepEdge|]. split; [exact H3|].
  exact (sobel_weighted_sum_of_saturated_gradients cv_model cv_model_laws
           readyProcessor stepEdge 3 eq_refl valid_stepEdge H3).
Defined.

(** C7, as the spec states it, fails on the wrapper: the radius-0 blur
    (kernel size 2 * 0 + 1) of a red pixel is the red pixel, which is not
    its grayscale conversion. *)
Lemma gaussianBlur_radius_zero_is_not_grayscale :
  @OpenCVProcessor.gaussianBlur cv_model readyProcessor redPixel (0 * 2 + 1) 0%Q
    = Ok redPixel
  /\ @OpenCVProcessor.grayscale cv_model readyProcessor redPixel
     = Ok (mkImageData 1 1 [76; 76; 76; 255])
  /\ @OpenCVProcessor.gaussianBlur cv_model readyProcessor redPixel (0 * 2 + 1) 0%Q
     <> @OpenCVProcessor.grayscale cv_model readyProcessor redPixel.
Proof.
  repeat split; try (vm_compute; reflexivity).
  vm_compute. discriminate.
Qed.

(** C7, amended. gaussianBlur with radius 0 is the identity on the RGBA
    buffer: with kernel size 2 * 0 + 1 the output equals the input, sample
    for sample and in all four channels, with no grayscale conversion; and
    with a blur amount of 0 the driver makes no blur call at all. *)
Theorem gaussianBlur_radius_zero_is_identity
  (cv : CvLib) (laws : CvLaws cv) (ed : EdgeDetectorApi)
  (config : EdgeDetectionConfig) (p : OpenCVProcessor.t) (img : ImageData)
  (sigma : Q) :
  OpenCVProcessor.isReady p = true ->
  valid_image img ->
  blurAmount config = 0 ->
  OpenCVProcessor.gaussianBlur p img (0 * 2 + 1) sigma = Ok img
  /\ forall call, In call (fst (processImage config p img)) ->
       (forall ksize, call <> OpenCV_gaussianBlur ksize)
       /\ (forall radius, call <> TypeScript_gaussianBlur radius).
Proof.
  intros Hready Hvalid Hblur. split.
  - destruct (valid_image_mat img Hvalid) as (Hok & Hd & Hch).
    destruct Hvalid as (Hw & Hh & Hlen & Hu8).
    unfold OpenCVProcessor.gaussianBlur. rewrite Hready. cbn [negb].
    change (0 * 2 + 1) with 1.
    rewrite (GaussianBlur_1x1 _ sigma Hok Hd). cbn [bind].
    rewrite toImageData_rgba by (cbn; try assumption; reflexivity).
    cbn. rewrite Uint8ClampedArray_id by assumption. now destruct img.
  - clear Hready Hvalid. revert Hblur.
    driver_cases config; intros Hblur; cbn in Hblur; subst;
      try discriminate; cbn [In]; intros call Hin;
      repeat (destruct Hin as [<-|Hin]; [split; intros; discriminate|]);
      destruct Hin.
Qed.

Lemma gaussianBlur_radius_zero_is_identity_witness :
  OpenCVProcessor.isReady readyProcessor = true
  /\ valid_image redPixel
  /\ blurAmount (mkConfig 40 0 sobel opencv) = 0
  /\ (OpenCVProcessor.gaussianBlur readyProcessor redPixel (0 * 2 + 1) 0%Q
        = Ok redPixel
      /\ forall call,
           In call (fst (processImage (mkConfig 40 0 sobel opencv)
                                      readyProcessor redPixel)) ->
           (forall ksize, call <> OpenCV_gaussianBlur ksize)
           /\ (forall radius, call <> TypeScript_gaussianBlur radius)).
Proof.
  split; [reflexivity|]. split; [exact valid_redPixel|]. split; [reflexivity|].
  exact (gaussianBlur_radius_zero_is_identity cv_model cv_model_laws
           EdgeDetector_spec (mkConfig 40 0 sobel opencv) readyProcessor
           redPixel 0%Q eq_refl valid_redPixel eq_refl).
Defined.

(** C8, as the spec states it, fails on the driver: a frame grabbed from an
    empty canvas raises [IndexSizeError] inside the [try] block, and
    [processFrame] does not pass it on to its caller; it returns normally
    with the error on the console and nothing rendered. *)
Lemma processing_error_is_not_surfaced :
  snd (@tryBlock cv_model EdgeDetector_spec runningApp emptyFrame)
    = Throw (DOMException "IndexSizeError")
  /\ @processFrame cv_model EdgeDetector_spec runningApp emptyFrame
     <> Throw (DOMException "IndexSizeError")
  /\ exists app',
       @processFrame cv_model EdgeDetector_spec runningApp emptyFrame = Ok app'
       /\ console app' = [DOMException "IndexSizeError"]
       /\ rendered app' = [].
Proof.
  split; [reflexivity|]. split; [discriminate|].
  eexists. split; [reflexivity|]. split; reflexivity.
Qed.

(** C8, amended. While processing is on, [processFrame] catches every
    exception raised while a frame is processed: it writes the exception,
    unmodified, to the console, renders nothing for that frame, and
    schedules the next frame; a frame that succeeds is rendered.  No
    exception leaves [processFrame], and the loop goes on through all the
    frames that follow, each adding one rendered result or one console
    entry. *)
Theorem processFrame_catches_errors
  (cv : CvLib) (ed : EdgeDetectorApi) (app : EdgeDetectionApp) (f : Frame)
  (frames : list Frame) :
  isProcessing (state app) = true ->
  (exists app',
     processFrame app f = Ok app'
     /\ isProcessing (state app') = true
     /\ animationId (state app') = Some (handle f)
     /\ (forall error, snd (tryBlock app f) = Throw error ->
           console app' = console app ++ [error]
           /\ rendered app' = rendered app)
     /\ (forall res, snd (tryBlock app f) = Ok res ->
           rendered app' = rendered app ++ [res]
           /\ console app' = console app))
  /\ (exists app',
        animationLoop app (f :: frames) = Ok app'
        /\ isProcessing (state app') = true
        /\ (length (rendered app') + length (console app')
            = length (rendered app) + length (console app)
              + length (f :: frames))%nat).
Proof.
  intros Hp. split.
  - destruct (processFrame_processing app f Hp)
      as (app' & E & Hs & _ & _ & _ & Hout).
    exists app'. split; [assumption|]. rewrite Hs. cbn [isProcessing animationId].
    split; [reflexivity|]. split; [reflexivity|].
    split; intros x Hx; rewrite Hx in Hout; exact Hout.
  - now apply animationLoop_total.
Qed.

Lemma processFrame_catches_errors_witness :
  isProcessing (state runningApp) = true
  /\ ((exists app',
         processFrame runningApp emptyFrame = Ok app'
         /\ isProcessing (state app') = true
         /\ animationId (state app') = Some (handle emptyFrame)
         /\ (forall error,
               snd (tryBlock runningApp emptyFrame) = Throw error ->
               console app' = console runningApp ++ [error]
               /\ rendered app' = rendered runningApp)
         /\ (forall res,
               snd (tryBlock runningApp emptyFrame) = Ok res ->
               rendered app' = rendered runningApp ++ [res]
               /\ console app' = console runningApp))
      /\ (exists app',
            animationLoop runningApp [emptyFrame; stepEdgeFrame] = Ok app'
            /\ isProcessing (state app') = true
            /\ (length (rendered app') + length (console app')
                = length (rendered runningApp) + length (console runningApp)
                  + length [emptyFrame; stepEdgeFrame])%nat)).
Proof.
  split; [reflexivity|].
  exact (processFrame_catches_errors cv_model EdgeDetector_spec runningApp
           emptyFrame [stepEdgeFrame] eq_refl).
Defined.

(** C9, as the claim states it, fails on the driver: the threshold slider's
    handler stores any integer, and with 'canny' selected and the threshold
    set to -1 in ready OpenCV mode the frame's Canny call is
    [canny(imageData, -1, -2)], its high threshold below the low one. *)
Lemma canny_negative_threshold_reverses_the_order :
  let app := setThreshold (selectAlgorithm readyApp canny) (-1) in
  threshold (config app) = -1
  /\ fst (@processImage cv_model EdgeDetector_spec (config app)
                        (opencvProcessor app) stepEdge)
     = [OpenCV_gaussianBlur 3; OpenCV_canny (-1) (-2)]
  /\ ~ (-2 >= -1).
Proof.
  cbn zeta. split; [reflexivity|]. split; [vm_compute; reflexivity|]. lia.
Qed.

(** C9, amended. Whenever the driver calls the OpenCV Canny operation, the
    low threshold is the configured threshold and the high threshold
    exactly twice it; so high is at least low exactly when the configured
    threshold is not negative (a negative one is forwarded with high below
    low), and they are equal exactly when the threshold is 0. *)
Theorem canny_thresholds_ordered_iff_nonnegative
  (cv : CvLib) (ed : EdgeDetectorApi) (config : EdgeDetectionConfig)
  (p : OpenCVProcessor.t) (img : ImageData) (lowThreshold highThreshold : Z) :
  In (OpenCV_canny lowThreshold highThreshold)
     (fst (processImage config p img)) ->
  lowThreshold = threshold config
  /\ highThreshold = 2 * threshold config
  /\ (lowThreshold <= highThreshold <-> 0 <= threshold config)
  /\ (highThreshold < lowThreshold <-> threshold config < 0)
  /\ (highThreshold = lowThreshold <-> threshold config = 0).
Proof.
  intros Hin.
  assert (H : lowThreshold = threshold config
              /\ highThreshold = threshold config * 2).
  { revert Hin.
    driver_cases config; cbn [In]; intros Hin;
      repeat match goal with
        | H : _ \/ _ |- _ => destruct H
        | H : False |- _ => destruct H
        | H : _ = OpenCV_canny _ _ |- _ =>
            first [discriminate H | injection H as <- <-]
        end;
      split; reflexivity. }
  destruct H as [-> ->]. repeat split; lia.
Qed.

Lemma canny_thresholds_ordered_iff_nonnegative_witness :
  In (OpenCV_canny 40 80)
     (fst (processImage (mkConfig 40 0 canny opencv) readyProcessor stepEdge))
  /\ (40 = threshold (mkConfig 40 0 canny opencv)
      /\ 80 = 2 * threshold (mkConfig 40 0 canny opencv)
      /\ (40 <= 80 <-> 0 <= threshold (mkConfig 40 0 canny opencv))
      /\ (80 < 40 <-> threshold (mkConfig 40 0 canny opencv) < 0)
      /\ (80 = 40 <-> threshold (mkConfig 40 0 canny opencv) = 0)).
Proof.
  assert (Hin : In (OpenCV_canny 40 80)
                   (fst (processImage (mkConfig 40 0 canny opencv)
                                      readyProcessor stepEdge)))
    by (left; reflexivity).
  split; [exact Hin|].
  exact (canny_thresholds_ordered_iff_nonnegative cv_model EdgeDetector_spec
           (mkConfig 40 0 canny opencv) readyProcessor stepEdge 40 80 Hin).
Defined.

(** C10. In TypeScript mode with method 'grayscale' the driver performs no
    grayscale conversion and raises no error of its own: the calls of the
    frame are the TypeScript blur (for a blur amount above 0) followed,
    once the blur has returned, by the TypeScript Sobel with the configured
    threshold, and the outcome of the frame is the outcome of that Sobel
    call on the blurred frame, so an exception can only be one that
    [EdgeDetector.gaussianBlur] or [EdgeDetector.sobel] raised.  And
    [selectAlgorithm] refuses 'grayscale' whenever the mode is not
    'opencv', whatever the method then selected: it leaves the
    configuration as it was and raises an alert. *)
Theorem typescript_grayscale_is_sobel
  (cv : CvLib) (ed : EdgeDetectorApi) (app : EdgeDetectionApp)
  (img : ImageData) :
  mode (config app) = typescript ->
  method (config app) = grayscale ->
  let c := config app in
  let p := opencvProcessor app in
  let blurred :=
    if 0 <? blurAmount c
    then EdgeDetector_gaussianBlur img (blurAmount c) else Ok img in
  fst (processImage c p img)
    = (if 0 <? blurAmount c
       then [TypeScript_gaussianBlur (blurAmount c)] else [])
      ++ match blurred with
         | Ok _ => [TypeScript_sobel (threshold c)]
         | Throw _ => []
         end
  /\ snd (processImage c p img)
     = (input <- blurred ;; EdgeDetector_sobel input (threshold c))
  /\ (forall error, snd (processImage c p img) = Throw error ->
        blurred = Throw error
        \/ exists input, EdgeDetector_sobel input (threshold c) = Throw error)
  /\ processImage c p img
     = processImage (mkConfig (threshold c) (blurAmount c) sobel typescript)
                    p img
  /\ (forall other : EdgeDetectionApp,
        mode (config other) <> opencv ->
        config (selectAlgorithm other grayscale) = config other
        /\ alerts (selectAlgorithm other grayscale)
           = alerts other
             ++ ["Grayscale filter is only available in OpenCV mode."%string]).
Proof.
  intros Hmode Hmethod c p blurred.
  assert (Hrun : processImage c p img
                 = ((if 0 <? blurAmount c
                     then [TypeScript_gaussianBlur (blurAmount c)] else [])
                    ++ match blurred with
                       | Ok _ => [TypeScript_sobel (threshold c)]
                       | Throw _ => []
                       end,
                    input <- blurred ;; EdgeDetector_sobel input (threshold c))).
  { subst blurred c p. unfold processImage. rewrite Hmode, Hmethod.
    cbn [is_opencv andb]. unfold invoke, bindL, ret. cbn [run].
    destruct (0 <? blurAmount (config app));
      [destruct (EdgeDetector_gaussianBlur img (blurAmount (config app)))|];
      reflexivity. }
  split; [now rewrite Hrun|]. split; [now rewrite Hrun|].
  split; [|split].
  - intros error. rewrite Hrun. cbn [snd].
    destruct blurred as [input|e]; cbn [bind]; intros H.
    + right. exists input. exact H.
    + left. exact H.
  - subst c p. unfold processImage. rewrite Hmode, Hmethod. reflexivity.
  - intros other Hother. unfold selectAlgorithm.
    destruct (mode (config other)); [now contradiction Hother|].
    split; reflexivity.
Qed.

Lemma typescript_grayscale_is_sobel_witness :
  mode (config typescriptGrayscaleApp) = typescript
  /\ method (config typescriptGrayscaleApp) = grayscale
  /\ (let c := config typescriptGrayscaleApp in
      let p := opencvProcessor typescriptGrayscaleApp in
      let blurred :=
        if 0 <? blurAmount c
        then EdgeDetector_gaussianBlur stepEdge (blurAmount c)
        else Ok stepEdge in
      fst (processImage c p stepEdge)
        = (if 0 <? blurAmount c
           then [TypeScript_gaussianBlur (blurAmount c)] else [])
          ++ match blurred with
             | Ok _ => [TypeScript_sobel (threshold c)]
             | Throw _ => []
             end
      /\ snd (processImage c p stepEdge)
         = (input <- blurred ;; EdgeDetector_sobel input (threshold c))
      /\ (forall error, snd (processImage c p stepEdge) = Throw error ->
            blurred = Throw error
            \/ exists input,
                 EdgeDetector_sobel input (threshold c) = Throw error)
      /\ processImage c p stepEdge
         = processImage (mkConfig (threshold c) (blurAmount c) sobel typescript)
                        p stepEdge
      /\ (forall other : EdgeDetectionApp,
            mode (config other) <> opencv ->
            config (selectAlgorithm other grayscale) = config other
            /\ alerts (selectAlgorithm other grayscale)
               = alerts other
                 ++ ["Grayscale filter is only available in OpenCV mode."%string])).
Proof.
  split; [reflexivity|]. split; [reflexivity|].
  exact (typescript_grayscale_is_sobel cv_model EdgeDetector_spec
           typescriptGrayscaleApp stepEdge eq_refl eq_refl).
Defined.

(* ===================================================================== *)
(** ** Further properties of the wrapper *)
(* ===================================================================== *)

(** What the DOM constructor accepted has four samples a pixel. *)
Lemma newImageData_inv (d : list Z) (sw sh : nat) (img : ImageData) :
  newImageData d sw sh = Ok img ->
  img = mkImageData sw sh d /\ (0 < sw)%nat /\ (0 < sh)%nat
  /\ length d = (4 * (sw * sh))%nat.
Proof.
  unfold newImageData.
  destruct (sw =? 0)%nat eqn:Hsw; [discriminate|].
  destruct (sh =? 0)%nat eqn:Hsh; [discriminate|]. cbn [orb].
  destruct (length d =? 0)%nat eqn:Hz; [discriminate|]. cbn [orb].
  destruct (length d mod 4 =? 0)%nat eqn:H4; [|discriminate]. cbn [negb].
  destruct ((length d / 4) mod sw =? 0)%nat eqn:Hm; [|discriminate].
  cbn [negb].
  destruct ((length d / 4) / sw =? sh)%nat eqn:Hq; [|discriminate].
  cbn [negb]. intros [= <-].
  apply Nat.eqb_neq in Hsw, Hsh. apply Nat.eqb_eq in H4, Hm, Hq.
  repeat split; try lia.
  pose proof (Nat.div_mod_eq (length d) 4) as E1.
  pose proof (Nat.div_mod_eq (length d / 4) sw) as E2.
  rewrite H4 in E1. rewrite Hm, Hq in E2. nia.
Qed.

Lemma Uint8ClampedArray_u8 (d : list Z) : Forall is_u8 (Uint8ClampedArray d).
Proof.
  unfold Uint8ClampedArray. apply Forall_forall. intros v Hin.
  apply in_map_iff in Hin. destruct Hin as (x & <- & _).
  unfold is_u8, clamp_u8. lia.
Qed.

(** Whatever matrix is converted, the frame that comes out is well formed
    and has the matrix's size. *)
Lemma toImageData_valid (m : Mat) (out : ImageData) :
  OpenCVProcessor.toImageData m = Ok out ->
  valid_image out /\ width out = cols m /\ height out = rows m.
Proof.
  unfold OpenCVProcessor.toImageData. intros H.
  apply newImageData_inv in H. destruct H as (-> & Hw & Hh & Hlen).
  unfold valid_image. cbn. repeat split; try assumption.
  apply Uint8ClampedArray_u8.
Qed.

(** Walk down a chain of library calls that ended well. *)
Ltac chain_ok H :=
  repeat match type of H with
    | bind ?r _ = Ok _ =>
        let m := fresh "m" in
        destruct r as [m|]; cbn [bind] in H; [|discriminate H]
    end.

Section WrapperOutput.
Context {cv : CvLib}.

Lemma canny_ok_valid p img low high out :
  OpenCVProcessor.canny p img low high = Ok out ->
  valid_image out /\ OpenCVProcessor.isReady p = true.
Proof.
  unfold OpenCVProcessor.canny.
  destruct (OpenCVProcessor.isReady p); cbn [negb]; [|discriminate].
  intros H. chain_ok H. split; [|reflexivity].
  eapply toImageData_valid; eassumption.
Qed.

Lemma grayscale_ok_valid p img out :
  OpenCVProcessor.grayscale p img = Ok out ->
  valid_image out /\ OpenCVProcessor.isReady p = true.
Proof.
  unfold OpenCVProcessor.grayscale.
  destruct (OpenCVProcessor.isReady p); cbn [negb]; [|discriminate].
  intros H. chain_ok H. split; [|reflexivity].
  eapply toImageData_valid; eassumption.
Qed.

Lemma sobel_ok_valid p img ksize out :
  OpenCVProcessor.sobel p img ksize = Ok out ->
  valid_image out /\ OpenCVProcessor.isReady p = true.
Proof.
  unfold OpenCVProcessor.sobel.
  destruct (OpenCVProcessor.isReady p); cbn [negb]; [|discriminate].
  intros H. chain_ok H. split; [|reflexivity].
  eapply toImageData_valid; eassumption.
Qed.

Lemma gaussianBlur_ok_valid p img ksize sigma out :
  OpenCVProcessor.gaussianBlur p img ksize sigma = Ok out ->
  valid_image out /\ OpenCVProcessor.isReady p = true.
Proof.
  unfold OpenCVProcessor.gaussianBlur.
  destruct (OpenCVProcessor.isReady p); cbn [negb]; [|discriminate].
  intros H. chain_ok H. split; [|reflexivity].
  eapply toImageData_valid; eassumption.
Qed.

Lemma laplacian_ok_valid p img ksize out :
  OpenCVProcessor.laplacian p img ksize = Ok out ->
  valid_image out /\ OpenCVProcessor.isReady p = true.
Proof.
  unfold OpenCVProcessor.laplacian.
  destruct (OpenCVProcessor.isReady p); cbn [negb]; [|discriminate].
  intros H. chain_ok H. split; [|reflexivity].
  eapply toImageData_valid; eassumption.
Qed.

End WrapperOutput.

(** X1. Whatever the library does, a frame returned by any of the five
    operations of the wrapper is well formed: positive width and height,
    exactly four samples per pixel, every sample in 0..255; and it was
    returned by a ready wrapper. *)
Theorem wrapper_output_is_well_formed
  (cv : CvLib) (p : OpenCVProcessor.t) (img out : ImageData)
  (lowThreshold highThreshold ksize : Z) (sigma : Q) :
  OpenCVProcessor.canny p img lowThreshold highThreshold = Ok out
  \/ OpenCVProcessor.grayscale p img = Ok out
  \/ OpenCVProcessor.sobel p img ksize = Ok out
  \/ OpenCVProcessor.gaussianBlur p img ksize sigma = Ok out
  \/ OpenCVProcessor.laplacian p img ksize = Ok out ->
  valid_image out /\ OpenCVProcessor.isReady p = true.
Proof.
  intros [H|[H|[H|[H|H]]]].
  - eapply canny_ok_valid; eassumption.
  - eapply grayscale_ok_valid; eassumption.
  - eapply sobel_ok_valid; eassumption.
  - eapply gaussianBlur_ok_valid; eassumption.
  - eapply laplacian_ok_valid; eassumption.
Qed.

Lemma grayscale_stepEdge :
  @OpenCVProcessor.grayscale cv_model readyProcessor stepEdge = Ok stepEdge.
Proof. vm_compute. reflexivity. Qed.

Lemma wrapper_output_is_well_formed_witness :
  (OpenCVProcessor.canny readyProcessor stepEdge 50 150 = Ok stepEdge
   \/ OpenCVProcessor.grayscale readyProcessor stepEdge = Ok stepEdge
   \/ OpenCVProcessor.sobel readyProcessor stepEdge 3 = Ok stepEdge
   \/ OpenCVProcessor.gaussianBlur readyProcessor stepEdge 3 0%Q = Ok stepEdge
   \/ OpenCVProcessor.laplacian readyProcessor stepEdge 3 = Ok stepEdge)
  /\ (valid_image stepEdge /\ OpenCVProcessor.isReady readyProcessor = true).
Proof.
  assert (H : OpenCVProcessor.canny readyProcessor stepEdge 50 150 = Ok stepEdge
              \/ OpenCVProcessor.grayscale readyProcessor stepEdge = Ok stepEdge
              \/ OpenCVProcessor.sobel readyProcessor stepEdge 3 = Ok stepEdge
              \/ OpenCVProcessor.gaussianBlur readyProcessor stepEdge 3 0%Q
                 = Ok stepEdge
              \/ OpenCVProcessor.laplacian readyProcessor stepEdge 3 = Ok stepEdge)
    by (right; left; exact grayscale_stepEdge).
  split; [exact H|].
  exact (wrapper_output_is_well_formed cv_model readyProcessor stepEdge stepEdge
           50 150 3 0%Q H).
Defined.

(* ===================================================================== *)
(** ** Further properties of the driver *)
(* ===================================================================== *)

Lemma odd_positive_blur (b : Z) : 0 < b -> odd_positive (b * 2 + 1).
Proof.
  intros Hb. split; [lia|].
  rewrite Z.add_comm, Z.mul_comm. rewrite Z.odd_add_mul_2. reflexivity.
Qed.

Section OpenCVPath.
Context {cv : CvLib} {laws : CvLaws cv} {ed : EdgeDetectorApi}.

(** On a ready backend and a valid frame, an OpenCV call of the driver
    returns a valid frame of the same size. *)
Lemma run_opencv_ok (p : OpenCVProcessor.t) (c : BackendCall)
      (img : ImageData) :
  OpenCVProcessor.isReady p = true -> valid_image img ->
  is_OpenCV_call c = true ->
  (forall ksize, c = OpenCV_gaussianBlur ksize -> odd_positive ksize) ->
  exists out, run p c img = Ok out /\ valid_image out
              /\ width out = width img /\ height out = height img.
Proof.
  intros Hready Hvalid Hc Hk.
  assert (H3 : In OpenCVProcessor.default_ksize [3; 5; 7])
    by (left; reflexivity).
  destruct c; try discriminate Hc; cbn [run].
  - destruct (gaussianBlur_dimensions p img Hready Hvalid ksize 0%Q
                (Hk ksize eq_refl)) as (out & E & Hw & Hh & _).
    exists out. split; [exact E|].
    split; [eapply gaussianBlur_ok_valid; eassumption|]. split; assumption.
  - destruct (sobel_dimensions p img Hready Hvalid _ H3)
      as (out & E & Hw & Hh & _).
    exists out. split; [exact E|].
    split; [eapply sobel_ok_valid; eassumption|]. split; assumption.
  - destruct (canny_dimensions p img Hready Hvalid lowThreshold highThreshold)
      as (out & E & Hw & Hh & _).
    exists out. split; [exact E|].
    split; [eapply canny_ok_valid; eassumption|]. split; assumption.
  - destruct (laplacian_dimensions p img Hready Hvalid _ H3)
      as (out & E & Hw & Hh & _).
    exists out. split; [exact E|].
    split; [eapply laplacian_ok_valid; eassumption|]. split; assumption.
  - destruct (grayscale_dimensions p img Hready Hvalid)
      as (out & E & Hw & Hh & _).
    exists out. split; [exact E|].
    split; [eapply grayscale_ok_valid; eassumption|]. split; assumption.
Qed.

(** The first switch of [processFrame], for the methods of the wrapper. *)
Lemma processImage_opencv (config : EdgeDetectionConfig)
      (p : OpenCVProcessor.t) (img : ImageData) :
  mode config = opencv -> OpenCVProcessor.ready p = true ->
  in_opencv_wrapper (method config) = true ->
  processImage config p img
  = (blurred <~ (if 0 <? blurAmount config
                 then invoke p (OpenCV_gaussianBlur (blurAmount config * 2 + 1))
                             img
                 else ret img) ;;
     invoke p (opencvCall config) blurred).
Proof.
  intros Hm Hr Hw. unfold processImage, opencvCall. rewrite Hm, Hr.
  cbn [is_opencv andb]. destruct (method config); try discriminate Hw;
    reflexivity.
Qed.

Lemma processImage_opencv_ok (config : EdgeDetectionConfig)
      (p : OpenCVProcessor.t) (img : ImageData) :
  mode config = opencv -> OpenCVProcessor.ready p = true ->
  in_opencv_wrapper (method config) = true ->
  valid_image img ->
  exists out,
    processImage config p img
    = ((if 0 <? blurAmount config
        then [OpenCV_gaussianBlur (blurAmount config * 2 + 1)] else [])
       ++ [opencvCall config], Ok out)
    /\ valid_image out
    /\ width out = width img /\ height out = height img.
Proof.
  intros Hm Hr Hw Hvalid. rewrite processImage_opencv by assumption.
  assert (Hop : is_OpenCV_call (opencvCall config) = true)
    by (unfold opencvCall; destruct (method config); reflexivity).
  assert (Hnb : forall ksize, opencvCall config = OpenCV_gaussianBlur ksize ->
                              odd_positive ksize)
    by (unfold opencvCall; destruct (method config); discriminate).
  unfold invoke, ret, bindL. destruct (0 <? blurAmount config) eqn:Hb.
  - apply Z.ltb_lt in Hb.
    destruct (run_opencv_ok p (OpenCV_gaussianBlur (blurAmount config * 2 + 1))
                img Hr Hvalid eq_refl) as (b1 & E1 & Hv1 & Hw1 & Hh1).
    { intros k [= <-]. now apply odd_positive_blur. }
    rewrite E1.
    destruct (run_opencv_ok p (opencvCall config) b1 Hr Hv1 Hop Hnb)
      as (out & E & Hv & Hw2 & Hh2).
    rewrite E. exists out. split; [reflexivity|]. split; [assumption|].
    split; congruence.
  - destruct (run_opencv_ok p (opencvCall config) img Hr Hvalid Hop Hnb)
      as (out & E & Hv & Hw2 & Hh2).
    rewrite E. exists out. split; [reflexivity|]. split; [assumption|].
    split; assumption.
Qed.

End OpenCVPath.

(** X2. In OpenCV mode on a ready backend, for the methods sobel, canny,
    laplacian and grayscale, the driver's processing of a valid frame never
    fails, whatever the threshold and the blur amount: it makes the OpenCV
    blur call when the blur amount is above 0, then the one OpenCV operator
    call, and yields a well-formed frame of the input's width and
    height. *)
Theorem opencv_path_succeeds
  (cv : CvLib) (laws : CvLaws cv) (ed : EdgeDetectorApi)
  (config : EdgeDetectionConfig) (p : OpenCVProcessor.t) (img : ImageData) :
  mode config = opencv ->
  OpenCVProcessor.ready p = true ->
  in_opencv_wrapper (method config) = true ->
  valid_image img ->
  exists out,
    snd (processImage config p img) = Ok out
    /\ fst (processImage config p img)
       = (if 0 <? blurAmount config
          then [OpenCV_gaussianBlur (blurAmount config * 2 + 1)] else [])
         ++ [opencvCall config]
    /\ valid_image out
    /\ width out = width img /\ height out = height img.
Proof.
  intros Hm Hr Hw Hvalid.
  destruct (processImage_opencv_ok config p img Hm Hr Hw Hvalid)
    as (out & E & Hv & Hwd & Hht).
  exists out. rewrite E. cbn [fst snd].
  split; [reflexivity|]. split; [reflexivity|]. split; [assumption|].
  split; assumption.
Qed.

Lemma opencv_path_succeeds_witness :
  mode (mkConfig 0 2 canny opencv) = opencv
  /\ OpenCVProcessor.ready readyProcessor = true
  /\ in_opencv_wrapper (method (mkConfig 0 2 canny opencv)) = true
  /\ valid_image stepEdge
  /\ exists out,
       snd (processImage (mkConfig 0 2 canny opencv) readyProcessor stepEdge)
       = Ok out
       /\ fst (processImage (mkConfig 0 2 canny opencv) readyProcessor stepEdge)
          = (if 0 <? blurAmount (mkConfig 0 2 canny opencv)
             then [OpenCV_gaussianBlur
                     (blurAmount (mkConfig 0 2 canny opencv) * 2 + 1)]
             else [])
            ++ [opencvCall (mkConfig 0 2 canny opencv)]
       /\ valid_image out
       /\ width out = width stepEdge /\ height out = height stepEdge.
Proof.
  split; [reflexivity|]. split; [reflexivity|]. split; [reflexivity|].
  split; [exact valid_stepEdge|].
  exact (opencv_path_succeeds cv_model cv_model_laws EdgeDetector_spec
           (mkConfig 0 2 canny opencv) readyProcessor stepEdge
           eq_refl eq_refl eq_refl valid_stepEdge).
Defined.

Section FrameFacts.
Context {cv : CvLib} {ed : EdgeDetectorApi}.

(** Everything [processFrame] can do to the application. *)
Lemma processFrame_effects (app : EdgeDetectionApp) (f : Frame) :
  exists app' log errors results,
    processFrame app f = Ok app'
    /\ opencvProcessor app' = opencvProcessor app
    /\ config app' = config app
    /\ alerts app' = alerts app
    /\ isProcessing (state app') = isProcessing (state app)
    /\ calls app' = calls app ++ log
    /\ console app' = console app ++ errors
    /\ rendered app' = rendered app ++ results
    /\ (length errors + length results <= 1)%nat
    /\ (isProcessing (state app) = true -> log = fst (tryBlock app f)).
Proof.
  unfold processFrame. destruct (isProcessing (state app)) eqn:Hp; cbn [negb].
  - destruct (tryBlock app f) as [log [res|error]].
    + exists (mkApp (opencvProcessor app)
                (mkProcessingState true (Some (handle f))) (config app)
                (updateFPS (fpsCounter app) (now f)) (console app)
                (rendered app ++ [res]) (alerts app) (calls app ++ log)),
        log, [], [res].
      cbn. rewrite app_nil_r. repeat split; lia.
    + exists (mkApp (opencvProcessor app)
                (mkProcessingState true (Some (handle f))) (config app)
                (fpsCounter app) (console app ++ [error]) (rendered app)
                (alerts app) (calls app ++ log)),
        log, [error], [].
      cbn. rewrite app_nil_r. repeat split; lia.
  - exists app, [], [], []. rewrite !app_nil_r, Hp.
    repeat split; cbn [length]; try lia; try discriminate.
Qed.

Lemma getImageData_valid (f : Frame) :
  valid_frame f ->
  exists img, getImageData f = Ok img /\ valid_image img
              /\ width img = canvasWidth f /\ height img = canvasHeight f.
Proof.
  intros (Hw & Hh & Hlen & Hu8). unfold getImageData.
  replace (canvasWidth f =? 0)%nat with false
    by (symmetry; apply Nat.eqb_neq; lia).
  replace (canvasHeight f =? 0)%nat with false
    by (symmetry; apply Nat.eqb_neq; lia).
  eexists. split; [reflexivity|]. unfold valid_image. cbn.
  repeat split; assumption.
Qed.

End FrameFacts.

(** X3. With the camera running in OpenCV mode on a ready backend and a
    method of the wrapper selected, the animation loop renders every valid
    frame it is given, in order, each at the size of its canvas, and writes
    nothing to the console. *)
Theorem opencv_loop_renders_every_frame
  (cv : CvLib) (laws : CvLaws cv) (ed : EdgeDetectorApi)
  (frames : list Frame) (app : EdgeDetectionApp) :
  isProcessing (state app) = true ->
  mode (config app) = opencv ->
  OpenCVProcessor.ready (opencvProcessor app) = true ->
  in_opencv_wrapper (method (config app)) = true ->
  Forall valid_frame frames ->
  exists app' results,
    animationLoop app frames = Ok app'
    /\ console app' = console app
    /\ rendered app' = rendered app ++ results
    /\ Forall2 (fun f out => valid_image out
                             /\ width out = canvasWidth f
                             /\ height out = canvasHeight f)
               frames results.
Proof.
  revert app. induction frames as [|f frames IH];
    intros app Hp Hm Hr Hw Hframes.
  - exists app, []. cbn. rewrite app_nil_r. repeat split. constructor.
  - inversion Hframes as [|? ? Hf Hrest]; subst.
    destruct (getImageData_valid f Hf) as (img & Eg & Hv & Hwi & Hhi).
    destruct (processImage_opencv_ok (config app) (opencvProcessor app) img
                Hm Hr Hw Hv) as (out & E & Hvo & Hwo & Hho).
    destruct (processFrame_processing app f Hp)
      as (app1 & E1 & Hs & Hproc & Hcfg & _ & Hout).
    rewrite tryBlock_outcome, Eg, E in Hout. cbn [snd] in Hout.
    destruct Hout as [Hren Hcon].
    destruct (IH app1) as (app' & results & E' & Hcon' & Hren' & Hall);
      try assumption; try (rewrite ?Hs, ?Hcfg, ?Hproc; assumption).
    + rewrite Hs. reflexivity.
    + exists app', (out :: results). cbn [animationLoop]. rewrite E1.
      cbn [bind]. split; [assumption|]. split; [congruence|].
      split; [rewrite Hren', Hren, <- app_assoc; reflexivity|].
      constructor; [|assumption].
      split; [assumption|]. split; congruence.
Qed.

Lemma valid_stepEdgeFrame : valid_frame stepEdgeFrame.
Proof. exact valid_stepEdge. Qed.

Lemma opencv_loop_renders_every_frame_witness :
  isProcessing (state readyApp) = true
  /\ mode (config readyApp) = opencv
  /\ OpenCVProcessor.ready (opencvProcessor readyApp) = true
  /\ in_opencv_wrapper (method (config readyApp)) = true
  /\ Forall valid_frame [stepEdgeFrame; stepEdgeFrame]
  /\ exists app' results,
       animationLoop readyApp [stepEdgeFrame; stepEdgeFrame] = Ok app'
       /\ console app' = console readyApp
       /\ rendered app' = rendered readyApp ++ results
       /\ Forall2 (fun f out => valid_image out
                                /\ width out = canvasWidth f
                                /\ height out = canvasHeight f)
                  [stepEdgeFrame; stepEdgeFrame] results.
Proof.
  assert (Hf : Forall valid_frame [stepEdgeFrame; stepEdgeFrame])
    by (constructor; [exact valid_stepEdgeFrame|];
        constructor; [exact valid_stepEdgeFrame|constructor]).
  split; [reflexivity|]. split; [reflexivity|]. split; [reflexivity|].
  split; [reflexivity|]. split; [exact Hf|].
  exact (opencv_loop_renders_every_frame cv_model cv_model_laws
           EdgeDetector_spec [stepEdgeFrame; stepEdgeFrame] readyApp
           eq_refl eq_refl eq_refl eq_refl Hf).
Defined.

(** X4. Processing frames never touches the configuration, the wrapper or
    the alerts, and never rewrites history: whatever the backends do, the
    animation loop returns normally, and the console, the rendered frames
    and the call log of the result extend those it started from. *)
Theorem animationLoop_preserves_settings
  (cv : CvLib) (ed : EdgeDetectorApi) (frames : list Frame)
  (app : EdgeDetectionApp) :
  exists app' log errors results,
    animationLoop app frames = Ok app'
    /\ opencvProcessor app' = opencvProcessor app
    /\ config app' = config app
    /\ alerts app' = alerts app
    /\ isProcessing (state app') = isProcessing (state app)
    /\ calls app' = calls app ++ log
    /\ console app' = console app ++ errors
    /\ rendered app' = rendered app ++ results
    /\ (length errors + length results <= length frames)%nat.
Proof.
  revert app. induction frames as [|f frames IH]; intros app.
  - exists app, [], [], []. cbn. rewrite !app_nil_r. repeat split. lia.
  - destruct (processFrame_effects app f)
      as (app1 & l1 & e1 & r1 & E1 & Hp1 & Hc1 & Ha1 & Hs1 & Hl1 & He1 & Hr1
          & Hn1 & _).
    destruct (IH app1)
      as (app' & l2 & e2 & r2 & E2 & Hp2 & Hc2 & Ha2 & Hs2 & Hl2 & He2 & Hr2
          & Hn2).
    exists app', (l1 ++ l2), (e1 ++ e2), (r1 ++ r2).
    cbn [animationLoop]. rewrite E1. cbn [bind].
    split; [assumption|]. repeat split; try congruence.
    + rewrite Hl2, Hl1. symmetry. apply app_assoc.
    + rewrite He2, He1. symmetry. apply app_assoc.
    + rewrite Hr2, Hr1. symmetry. apply app_assoc.
    + rewrite !length_app. cbn [length]. lia.
Qed.

(** X5. Once the camera is stopped, frame callbacks do nothing: the
    animation loop leaves the stopped application exactly as it is (no
    backend call, nothing rendered, no frame scheduled); and a later
    metadata event switches processing on again under the configuration
    that was in force. *)
Theorem stopped_loop_is_inert
  (cv : CvLib) (ed : EdgeDetectorApi) (app : EdgeDetectionApp)
  (frames : list Frame) (f : Frame) :
  animationLoop (stopWebcam app) frames = Ok (stopWebcam app)
  /\ animationId (state (stopWebcam app)) = None
  /\ exists app',
       onloadedmetadata (stopWebcam app) f = Ok app'
       /\ isProcessing (state app') = true
       /\ animationId (state app') = Some (handle f)
       /\ config app' = config app.
Proof.
  split; [|split; [reflexivity|]].
  - induction frames as [|g frames IH]; [reflexivity|].
    cbn [animationLoop]. rewrite processFrame_idle by reflexivity.
    exact IH.
  - unfold onloadedmetadata.
    destruct (processFrame_processing (startProcessing (stopWebcam app)) f
                eq_refl) as (app' & E & Hs & _ & Hc & _).
    exists app'. rewrite Hs. repeat split; assumption.
Qed.

(** X6. A frame grabbed while the canvas has no width or no height is
    handled without any backend call: the [IndexSizeError] goes to the
    console, nothing is rendered, the FPS counter does not move, and the
    next frame is scheduled. *)
Theorem empty_canvas_frame_is_logged
  (cv : CvLib) (ed : EdgeDetectorApi) (app : EdgeDetectionApp) (f : Frame) :
  isProcessing (state app) = true ->
  canvasWidth f = 0%nat \/ canvasHeight f = 0%nat ->
  exists app',
    processFrame app f = Ok app'
    /\ calls app' = calls app
    /\ console app' = console app ++ [DOMException "IndexSizeError"]
    /\ rendered app' = rendered app
    /\ fpsCounter app' = fpsCounter app
    /\ state app' = mkProcessingState true (Some (handle f)).
Proof.
  intros Hp Hempty. unfold processFrame, tryBlock, getImageData, bindL.
  rewrite Hp. cbn [negb].
  assert (Hz : ((canvasWidth f =? 0) || (canvasHeight f =? 0))%nat = true).
  { destruct Hempty as [-> | ->]; [reflexivity|]. apply orb_true_r. }
  rewrite Hz. eexists. split; [reflexivity|]. cbn.
  rewrite app_nil_r. repeat split.
Qed.

Lemma empty_canvas_frame_is_logged_witness :
  isProcessing (state runningApp) = true
  /\ (canvasWidth (mkFrame 0 4 [] 16 1) = 0%nat
      \/ canvasHeight (mkFrame 0 4 [] 16 1) = 0%nat)
  /\ exists app',
       processFrame runningApp (mkFrame 0 4 [] 16 1) = Ok app'
       /\ calls app' = calls runningApp
       /\ console app' = console runningApp ++ [DOMException "IndexSizeError"]
       /\ rendered app' = rendered runningApp
       /\ fpsCounter app' = fpsCounter runningApp
       /\ state app' = mkProcessingState true
                         (Some (handle (mkFrame 0 4 [] 16 1))).
Proof.
  split; [reflexivity|]. split; [left; reflexivity|].
  exact (empty_canvas_frame_is_logged cv_model EdgeDetector_spec runningApp
           (mkFrame 0 4 [] 16 1) eq_refl (or_introl eq_refl)).
Defined.

Section CallFacts.
Context {cv : CvLib} {ed : EdgeDetectorApi}.

(** Every call of a frame, by kind. *)
Lemma processImage_calls (config : EdgeDetectionConfig)
      (p : OpenCVProcessor.t) (img : ImageData) (call : BackendCall) :
  In call (fst (processImage config p img)) ->
  (is_OpenCV_call call = true ->
   mode config = opencv /\ OpenCVProcessor.ready p = true)
  /\ (is_blur_call call = true ->
      0 < blurAmount config
      /\ (call = OpenCV_gaussianBlur (blurAmount config * 2 + 1)
          \/ call = TypeScript_gaussianBlur (blurAmount config))).
Proof.
  driver_cases config; cbn [In]; intros Hin;
    repeat match goal with
      | H : _ \/ _ |- _ => destruct H
      | H : False |- _ => destruct H
      end;
    subst call; cbn [is_OpenCV_call is_blur_call];
    (split; intros Hk; try discriminate Hk);
    repeat split; try reflexivity; try (apply Z.ltb_lt; assumption);
    try (left; reflexivity); try (right; reflexivity).
Qed.

End CallFacts.

(** X7. The driver calls the OpenCV backend only in OpenCV mode and only
    once the backend is ready; in TypeScript mode it never does, ready or
    not. *)
Theorem opencv_called_only_when_selected_and_ready
  (cv : CvLib) (ed : EdgeDetectorApi) (config : EdgeDetectionConfig)
  (p : OpenCVProcessor.t) (img : ImageData) (call : BackendCall) :
  In call (fst (processImage config p img)) ->
  is_OpenCV_call call = true ->
  mode config = opencv /\ OpenCVProcessor.ready p = true.
Proof.
  intros Hin Hcv.
  destruct (processImage_calls config p img call Hin) as [H _].
  exact (H Hcv).
Qed.

Lemma opencv_called_only_when_selected_and_ready_witness :
  In OpenCV_sobel
     (fst (processImage (mkConfig 40 0 sobel opencv) readyProcessor stepEdge))
  /\ is_OpenCV_call OpenCV_sobel = true
  /\ (mode (mkConfig 40 0 sobel opencv) = opencv
      /\ OpenCVProcessor.ready readyProcessor = true).
Proof.
  assert (Hin : In OpenCV_sobel
                   (fst (processImage (mkConfig 40 0 sobel opencv)
                                      readyProcessor stepEdge)))
    by (left; reflexivity).
  split; [exact Hin|]. split; [reflexivity|].
  exact (opencv_called_only_when_selected_and_ready cv_model EdgeDetector_spec
           (mkConfig 40 0 sobel opencv) readyProcessor stepEdge OpenCV_sobel
           Hin eq_refl).
Defined.

(** X8. A blur call is made only for a blur amount above 0; the OpenCV
    blur then gets the kernel size 2 * blurAmount + 1, which is odd and at
    least 3, and the TypeScript blur the blur amount itself as radius. *)
Theorem blur_calls_follow_blurAmount
  (cv : CvLib) (ed : EdgeDetectorApi) (config : EdgeDetectionConfig)
  (p : OpenCVProcessor.t) (img : ImageData) (call : BackendCall) :
  In call (fst (processImage config p img)) ->
  is_blur_call call = true ->
  0 < blurAmount config
  /\ (call = OpenCV_gaussianBlur (blurAmount config * 2 + 1)
      \/ call = TypeScript_gaussianBlur (blurAmount config))
  /\ Z.odd (blurAmount config * 2 + 1) = true
  /\ 3 <= blurAmount config * 2 + 1.
Proof.
  intros Hin Hblur.
  destruct (processImage_calls config p img call Hin) as [_ H].
  destruct (H Hblur) as [Hpos Hcall].
  split; [assumption|]. split; [assumption|].
  split; [apply (odd_positive_blur _ Hpos)|lia].
Qed.

Lemma blur_calls_follow_blurAmount_witness :
  In (OpenCV_gaussianBlur 5)
     (fst (processImage (mkConfig 40 2 sobel opencv) readyProcessor stepEdge))
  /\ is_blur_call (OpenCV_gaussianBlur 5) = true
  /\ (0 < blurAmount (mkConfig 40 2 sobel opencv)
      /\ (OpenCV_gaussianBlur 5
          = OpenCV_gaussianBlur (blurAmount (mkConfig 40 2 sobel opencv) * 2 + 1)
          \/ OpenCV_gaussianBlur 5
             = TypeScript_gaussianBlur (blurAmount (mkConfig 40 2 sobel opencv)))
      /\ Z.odd (blurAmount (mkConfig 40 2 sobel opencv) * 2 + 1) = true
      /\ 3 <= blurAmount (mkConfig 40 2 sobel opencv) * 2 + 1).
Proof.
  assert (Hin : In (OpenCV_gaussianBlur 5)
                   (fst (processImage (mkConfig 40 2 sobel opencv)
                                      readyProcessor stepEdge)))
    by (vm_compute; left; reflexivity).
  split; [exact Hin|]. split; [reflexivity|].
  exact (blur_calls_follow_blurAmount cv_model EdgeDetector_spec
           (mkConfig 40 2 sobel opencv) readyProcessor stepEdge
           (OpenCV_gaussianBlur 5) Hin eq_refl).
Defined.

(** X9. A frame makes at most two blur calls and at most one operator
    call; the operator call, when there is one, is the last call; and a
    frame that succeeds has made exactly one. *)
Theorem one_operator_call_per_frame
  (cv : CvLib) (ed : EdgeDetectorApi) (config : EdgeDetectionConfig)
  (p : OpenCVProcessor.t) (img : ImageData) :
  let log := fst (processImage config p img) in
  let operators := filter (fun c => negb (is_blur_call c)) log in
  (length (filter is_blur_call log) <= 2)%nat
  /\ (length operators <= 1)%nat
  /\ (forall c, In c operators -> last log c = c)
  /\ (forall out, snd (processImage config p img) = Ok out ->
        length operators = 1%nat).
Proof.
  cbn zeta. driver_cases config;
    cbn [filter is_blur_call negb length last In];
    repeat split; try lia; try discriminate; try reflexivity;
    intros c Hin;
    repeat match goal with
      | H : _ \/ _ |- _ => destruct H
      | H : False |- _ => destruct H
      end;
    subst; reflexivity.
Qed.

(** X10. In OpenCV mode on a ready backend the threshold has no effect on
    the methods sobel, laplacian and grayscale: two configurations that
    differ only in the threshold process a frame identically. *)
Theorem threshold_unused_by_opencv_sobel_laplacian_grayscale
  (cv : CvLib) (ed : EdgeDetectorApi) (t1 t2 b : Z) (m : EdgeDetectionMethod)
  (p : OpenCVProcessor.t) (img : ImageData) :
  OpenCVProcessor.ready p = true ->
  m = sobel \/ m = laplacian \/ m = grayscale ->
  processImage (mkConfig t1 b m opencv) p img
  = processImage (mkConfig t2 b m opencv) p img.
Proof.
  intros Hr Hm. unfold processImage.
  cbn [mode method threshold blurAmount is_opencv]. rewrite Hr.
  destruct Hm as [-> |[-> | ->]]; reflexivity.
Qed.

Lemma threshold_unused_by_opencv_sobel_laplacian_grayscale_witness :
  OpenCVProcessor.ready readyProcessor = true
  /\ (laplacian = sobel \/ laplacian = laplacian \/ laplacian = grayscale)
  /\ processImage (mkConfig 0 1 laplacian opencv) readyProcessor stepEdge
     = processImage (mkConfig 255 1 laplacian opencv) readyProcessor stepEdge.
Proof.
  split; [reflexivity|]. split; [right; left; reflexivity|].
  exact (threshold_unused_by_opencv_sobel_laplacian_grayscale cv_model
           EdgeDetector_spec 0 255 1 laplacian readyProcessor stepEdge
           eq_refl (or_intror (or_introl eq_refl))).
Defined.

(* ===================================================================== *)
(** ** The selectors and the event history *)
(* ===================================================================== *)

(** X11. [selectMode] changes nothing but the mode, and enters OpenCV mode
    only on a ready backend: asked for OpenCV before the library is ready
    it leaves the configuration as it is and raises an alert; otherwise it
    sets the mode asked for and raises none. *)
Theorem selectMode_guard (app : EdgeDetectionApp) (m : ProcessingMode) :
  let app' := selectMode app m in
  (opencvProcessor app' = opencvProcessor app /\ state app' = state app
   /\ threshold (config app') = threshold (config app)
   /\ blurAmount (config app') = blurAmount (config app)
   /\ method (config app') = method (config app))
  /\ (mode (config app') = opencv ->
      mode (config app) = opencv
      \/ OpenCVProcessor.ready (opencvProcessor app) = true)
  /\ (m = typescript \/ OpenCVProcessor.ready (opencvProcessor app) = true ->
      mode (config app') = m /\ alerts app' = alerts app)
  /\ (m = opencv /\ OpenCVProcessor.ready (opencvProcessor app) = false ->
      config app' = config app
      /\ alerts app' = alerts app ++ [alert_opencv_not_loaded]).
Proof.
  cbn zeta. unfold selectMode.
  destruct (OpenCVProcessor.ready (opencvProcessor app)) eqn:Hr.
  - rewrite andb_false_r.
    cbn [set_config opencvProcessor state config threshold blurAmount method
         mode alerts].
    split; [repeat split|]. split; [intros _; right; reflexivity|].
    split; [intros _; split; reflexivity|].
    intros [_ H]. discriminate H.
  - destruct m; cbn [is_opencv andb negb].
    + cbn [alert opencvProcessor state config alerts].
      split; [repeat split|]. split; [intros H; left; exact H|].
      split; [intros [H|H]; discriminate H|].
      intros _. split; reflexivity.
    + cbn [set_config opencvProcessor state config threshold blurAmount
           method mode alerts].
      split; [repeat split|]. split; [intros H; discriminate H|].
      split; [intros _; split; reflexivity|].
      intros [H _]. discriminate H.
Qed.

(** X12. The restriction of 'grayscale' to OpenCV mode is not kept by the
    mode switch: after 'grayscale' is chosen in OpenCV mode, switching to
    TypeScript mode (or a failed load of OpenCV) leaves the method
    'grayscale' in TypeScript mode without any alert, a configuration that
    [selectAlgorithm] itself refuses to produce. *)
Theorem grayscale_survives_mode_switch (app : EdgeDetectionApp) :
  mode (config app) = opencv ->
  let chosen := selectAlgorithm app grayscale in
  let switched := selectMode chosen typescript in
  method (config switched) = grayscale
  /\ mode (config switched) = typescript
  /\ alerts switched = alerts app
  /\ config (initializeOpenCV_rejected chosen) = config switched
  /\ config (selectAlgorithm
               (selectAlgorithm switched sobel) grayscale)
     = config (selectAlgorithm switched sobel).
Proof.
  intros Hm. cbn zeta. unfold selectMode, selectAlgorithm,
    initializeOpenCV_rejected.
  rewrite Hm. cbn. repeat split.
Qed.

Lemma grayscale_survives_mode_switch_witness :
  mode (config readyApp) = opencv
  /\ (let chosen := selectAlgorithm readyApp grayscale in
      let switched := selectMode chosen typescript in
      method (config switched) = grayscale
      /\ mode (config switched) = typescript
      /\ alerts switched = alerts readyApp
      /\ config (initializeOpenCV_rejected chosen) = config switched
      /\ config (selectAlgorithm
                   (selectAlgorithm switched sobel) grayscale)
         = config (selectAlgorithm switched sobel)).
Proof.
  split; [reflexivity|].
  exact (grayscale_survives_mode_switch readyApp eq_refl).
Defined.

Section History.
Context {cv : CvLib} {ed : EdgeDetectorApi}.





End History.


(* ===================================================================== *)
(** ** The frame counter and the pixels of the remaining wrapper operators *)
(* ===================================================================== *)

Lemma Math_round_nearest (n d : Z) :
  0 < d -> - d <= 2 * (n - d * Math_round n d) < d.
Proof.
  intros Hd. unfold Math_round.
  pose proof (Z.div_mod (2 * n + d) (2 * d) ltac:(lia)) as Hdm.
  pose proof (Z.mod_pos_bound (2 * n + d) (2 * d) ltac:(lia)) as Hb.
  lia.
Qed.

Lemma Math_round_le (count d : Z) :
  0 <= count -> 1000 <= d -> 0 <= Math_round (count * 1000) d <= count.
Proof.
  intros Hc Hd. unfold Math_round. split.
  - apply Z.div_pos; nia.
  - apply Z.lt_succ_r. apply Z.div_lt_upper_bound; nia.
Qed.

(** X14. [updateFPS] counts every processed frame, and once a second or
    more has passed since the last reading it publishes the frame rate and
    starts over: the published value is the nearest integer to
    [frames * 1000 / elapsed], never negative and never above the number of
    frames counted, the count restarts at 0 and the reference time becomes
    the current one.  Before a full second has passed, the displayed rate
    and the reference time are left alone. *)
Theorem updateFPS_publishes_once_a_second (c : FPSCounter) (now : Z) :
  0 <= frameCount c ->
  let c' := updateFPS c now in
  let elapsed := now - lastTime c in
  let frames := frameCount c + 1 in
  (1000 <= elapsed ->
     frameCount c' = 0 /\ lastTime c' = now
     /\ 0 <= currentFPS c' <= frames
     /\ - elapsed <= 2 * (frames * 1000 - elapsed * currentFPS c') < elapsed)
  /\ (elapsed < 1000 ->
        frameCount c' = frames /\ lastTime c' = lastTime c
        /\ currentFPS c' = currentFPS c)
  /\ 0 <= frameCount c'.
Proof.
  intros Hc. cbn zeta. unfold updateFPS.
  destruct (1000 <=? now - lastTime c) eqn:Ht;
    [apply Z.leb_le in Ht | apply Z.leb_gt in Ht];
    cbn [frameCount lastTime currentFPS].
  - split; [|split; [lia|lia]]. intros _.
    split; [reflexivity|]. split; [reflexivity|].
    split; [apply Math_round_le; lia|].
    apply Math_round_nearest. lia.
  - split; [lia|]. split; [|lia]. intros _. repeat split.
Qed.

Lemma updateFPS_publishes_once_a_second_witness :
  0 <= frameCount (mkFPSCounter 29 0 0)
  /\ (let c := mkFPSCounter 29 0 0 in
      let c' := updateFPS c 1001 in
      let elapsed := 1001 - lastTime c in
      let frames := frameCount c + 1 in
      (1000 <= elapsed ->
         frameCount c' = 0 /\ lastTime c' = 1001
         /\ 0 <= currentFPS c' <= frames
         /\ - elapsed <= 2 * (frames * 1000 - elapsed * currentFPS c')
            < elapsed)
      /\ (elapsed < 1000 ->
            frameCount c' = frames /\ lastTime c' = lastTime c
            /\ currentFPS c' = currentFPS c)
      /\ 0 <= frameCount c').
Proof.
  assert (H : 0 <= frameCount (mkFPSCounter 29 0 0)) by (cbn; lia).
  split; [exact H|].
  exact (updateFPS_publishes_once_a_second (mkFPSCounter 29 0 0) 1001 H).
Defined.

Section WrapperPixels.
Context {cv : CvLib} {laws : CvLaws cv}.

(** The frame made of a single-channel 8-bit matrix, sample by sample. *)
Lemma emit_gray_pixels (img : ImageData) (m : Mat) :
  valid_image img -> rows m = height img -> cols m = width img ->
  mat_ok m -> depth m = CV_8U -> channels m = 1%nat ->
  exists out,
    (res <- cvtColor m COLOR_GRAY2RGBA ;; OpenCVProcessor.toImageData res)
    = Ok out
    /\ width out = width img /\ height out = height img
    /\ forall i c, (i < width img * height img)%nat -> (c < 4)%nat ->
         nth (4 * i + c) (data out) 0
         = if (c =? 3)%nat then 255 else clamp_u8 (nth i (mdata m) 0).
Proof.
  intros (Hw & Hh & _) Hr Hc Hok Hd Hch.
  rewrite emit_gray by (rewrite ?Hr, ?Hc; assumption).
  eexists. split; [reflexivity|]. cbn [width height data].
  split; [assumption|]. split; [assumption|].
  intros i c Hi Hc4. unfold Uint8ClampedArray.
  rewrite nth_map_zero by reflexivity.
  rewrite nth_flat_map_rgba by (rewrite ?Hok, ?Hr, ?Hc, ?Hch; lia).
  destruct (c =? 3)%nat; reflexivity.
Qed.

End WrapperPixels.

(** X15. The Laplacian of the OpenCV wrapper discards the sign of the
    response and saturates it: for every valid frame and kernel size 3, 5
    or 7 the call succeeds with a frame of the input's size in which each
    pixel is [min(|L|, 255)], where [L] is the signed 16-bit response of
    [cv.Laplacian] on the blurred grayscale frame, written to the three
    colour samples with alpha 255. *)
Theorem laplacian_emits_saturated_absolute_response
  (cv : CvLib) (laws : CvLaws cv) (p : OpenCVProcessor.t) (img : ImageData)
  (ksize : Z) :
  OpenCVProcessor.isReady p = true ->
  valid_image img ->
  In ksize [3; 5; 7] ->
  exists lap out,
    laplacianResponse img ksize = Ok lap
    /\ OpenCVProcessor.laplacian p img ksize = Ok out
    /\ width out = width img /\ height out = height img
    /\ forall i, (i < width img * height img)%nat ->
         px out i = Z.min (Z.abs (nth i (mdata lap) 0)) 255
         /\ nth (4 * i + 1) (data out) 0 = px out i
         /\ nth (4 * i + 2) (data out) 0 = px out i
         /\ nth (4 * i + 3) (data out) 0 = 255.
Proof.
  intros Hready Hvalid Hk.
  destruct (valid_image_mat img Hvalid) as (Hok & Hd & Hch).
  unfold OpenCVProcessor.laplacian, laplacianResponse.
  rewrite Hready. cbn [negb].
  step_law (cvtColor_RGBA2GRAY _ Hok Hd Hch).
  assert (H3 : odd_positive 3) by (split; [lia|reflexivity]).
  step_law (GaussianBlur_size m 3 0%Q Hok0 Hdepth H3).
  rewrite Hchan in Hchan0.
  step_law (Laplacian_size m0 ksize Hok1 Hdepth0 Hchan0 Hk).
  rewrite convertScaleAbs_abs. cbn [bind].
  cbn in Hrows, Hcols.
  set (absLaplacian := mkMat (rows m1) (cols m1) CV_8U (channels m1)
                          (map (fun v => saturate_u8 (Z.abs v)) (mdata m1))).
  assert (Habs : mat_ok absLaplacian)
    by (unfold mat_ok in *; cbn; now rewrite length_map).
  assert (Hr : rows absLaplacian = height img) by (cbn; congruence).
  assert (Hc : cols absLaplacian = width img) by (cbn; congruence).
  destruct (emit_gray_pixels img absLaplacian Hvalid Hr Hc Habs eq_refl Hchan1)
    as (out & Eo & Hwo & Hho & Hpx).
  exists m1, out. split; [reflexivity|]. split; [exact Eo|].
  split; [assumption|]. split; [assumption|].
  intros i Hi.
  pose proof (Hpx i 0%nat Hi ltac:(lia)) as H0.
  pose proof (Hpx i 1%nat Hi ltac:(lia)) as H1.
  pose proof (Hpx i 2%nat Hi ltac:(lia)) as H2.
  pose proof (Hpx i 3%nat Hi ltac:(lia)) as H4.
  cbn [Nat.eqb mdata absLaplacian] in H0, H1, H2, H4.
  rewrite (nth_map_zero (fun v => saturate_u8 (Z.abs v))) in H0, H1, H2
    by reflexivity.
  rewrite clamp_u8_id in H0, H1, H2 by apply saturate_u8_range.
  unfold px. rewrite Nat.add_0_r in H0. rewrite H0, H1, H2, H4.
  repeat split. unfold saturate_u8. lia.
Qed.

Lemma laplacian_emits_saturated_absolute_response_witness :
  OpenCVProcessor.isReady readyProcessor = true
  /\ valid_image stepEdge
  /\ In 3 [3; 5; 7]
  /\ exists lap out,
       laplacianResponse stepEdge 3 = Ok lap
       /\ OpenCVProcessor.laplacian readyProcessor stepEdge 3 = Ok out
       /\ width out = width stepEdge /\ height out = height stepEdge
       /\ forall i, (i < width stepEdge * height stepEdge)%nat ->
            px out i = Z.min (Z.abs (nth i (mdata lap) 0)) 255
            /\ nth (4 * i + 1) (data out) 0 = px out i
            /\ nth (4 * i + 2) (data out) 0 = px out i
            /\ nth (4 * i + 3) (data out) 0 = 255.
Proof.
  assert (H3 : In 3 [3; 5; 7]) by (left; reflexivity).
  split; [reflexivity|]. split; [exact valid_stepEdge|]. split; [exact H3|].
  exact (laplacian_emits_saturated_absolute_response cv_model cv_model_laws
           readyProcessor stepEdge 3 eq_refl valid_stepEdge H3).
Defined.

(** X16. After a failed load of OpenCV the application runs on the
    TypeScript backend: [initializeOpenCV]'s catch branch sets the mode to
    'typescript' and keeps threshold, blur amount and method; a frame
    processed in that state makes no call to the OpenCV backend, whatever
    the wrapper's state, and while the wrapper is not ready a click on the
    OpenCV mode button changes no setting. *)
Theorem failed_load_falls_back_to_typescript
  (cv : CvLib) (ed : EdgeDetectorApi) (app : EdgeDetectionApp) :
  let app' := initializeOpenCV_rejected app in
  mode (config app') = typescript
  /\ threshold (config app') = threshold (config app)
  /\ blurAmount (config app') = blurAmount (config app)
  /\ method (config app') = method (config app)
  /\ alerts app' = alerts app
  /\ (forall f call, In call (fst (tryBlock app' f)) ->
        is_OpenCV_call call = false)
  /\ (OpenCVProcessor.ready (opencvProcessor app) = false ->
      config (selectMode app' opencv) = config app').
Proof.
  cbn zeta. unfold initializeOpenCV_rejected.
  cbn [set_config config mode threshold blurAmount method alerts].
  do 5 (split; [reflexivity|]). split.
  - intros f call Hin. rewrite tryBlock_calls in Hin.
    destruct (getImageData f) as [img|]; [|destruct Hin].
    cbn [config opencvProcessor] in Hin.
    destruct (is_OpenCV_call call) eqn:Hcv; [|reflexivity].
    destruct (processImage_calls _ _ _ _ Hin) as [H _].
    destruct (H Hcv) as [Hm _]. discriminate Hm.
  - intros Hr. unfold selectMode, set_config.
    cbn [opencvProcessor is_opencv andb]. rewrite Hr. reflexivity.
Qed.
